(** * debounce.js: a shallow embedding and its verified properties

    The file embeds [src/debounce.js] (the debounced invoker of lodash):
    the constructor [debounce], the closure state it captures and the
    operations [debounced], [cancel], [flush] and [pending] together with
    the internal handlers [invokeFunc], [startTimer], [cancelTimer],
    [leadingEdge], [remainingWait], [shouldInvoke], [timerExpired] and
    [trailingEdge].

    Modelling choices.
    - JavaScript numbers are extended rationals ([NaN], the two infinities
      and the finite values as [Q]): arithmetic is exact, the two zeros
      are one value.  No statement below relies on a sum or difference
      being exact where a double would round.
    - [Date.now()] is an integer number of milliseconds and is passed to
      every operation that reads the clock.
    - The closure variables are the fields of [State]; the host timers
      ([setTimeout], [requestAnimationFrame]) are the fields of [Host].
    - The target [func] receives the receiver and the arguments, may
      depend on the calls made before, and either returns a value or
      throws.  Every call is appended to a log together with a snapshot
      of the closure state at the moment of the call.  In the main
      development the target does not call back into its own instance;
      targets that do ([Script], [ReTarget], [Reentrant]) are treated
      where a property depends on it.
    - A [throw] keeps the mutations done before it, as in JavaScript. *)

From Stdlib Require Import ZArith QArith Bool List String Lia Lqa.
Import ListNotations.

Set Implicit Arguments.

(* ===================================================================== *)
(** ** JavaScript numbers *)
(* ===================================================================== *)

Module JSNumber.

Inductive number : Type :=
| NaN
| NegInf
| Fin (q : Q)
| PosInf.

Definition zero : number := Fin 0%Q.

(** The value of [Date.now()] seen as a number. *)
Definition ofTime (t : Z) : number := Fin (inject_Z t).

(** [a - b] *)
Definition sub (a b : number) : number :=
  match a, b with
  | NaN, _ | _, NaN => NaN
  | PosInf, PosInf => NaN
  | NegInf, NegInf => NaN
  | PosInf, _ => PosInf
  | NegInf, _ => NegInf
  | Fin _, PosInf => NegInf
  | Fin _, NegInf => PosInf
  | Fin x, Fin y => Fin (x - y)%Q
  end.

(** [a <= b]; any comparison with [NaN] is false. *)
Definition le (a b : number) : bool :=
  match a, b with
  | NaN, _ | _, NaN => false
  | NegInf, _ => true
  | _, PosInf => true
  | Fin x, Fin y => Qle_bool x y
  | _, _ => false
  end.

(** [a < b] *)
Definition lt (a b : number) : bool :=
  match a, b with
  | NaN, _ | _, NaN => false
  | NegInf, NegInf => false
  | PosInf, PosInf => false
  | NegInf, _ => true
  | _, PosInf => true
  | Fin x, Fin y => negb (Qle_bool y x)
  | _, _ => false
  end.

(** [a >= b] *)
Definition ge (a b : number) : bool := le b a.

Definition isNaN (a : number) : bool :=
  match a with NaN => true | _ => false end.

(** [a === 0]: both zeros are equal to [0]. *)
Definition isZero (a : number) : bool :=
  match a with Fin q => Qeq_bool q 0 | _ => false end.

(** [Math.max(a, b)] *)
Definition max (a b : number) : number :=
  if isNaN a || isNaN b then NaN else if le a b then b else a.

(** [Math.min(a, b)] *)
Definition min (a b : number) : number :=
  if isNaN a || isNaN b then NaN else if le a b then a else b.

(** The boolean value of a number: [NaN] and [0] are falsy. *)
Definition truthy (a : number) : bool := negb (isNaN a || isZero a).

End JSNumber.
Import JSNumber.

(* ===================================================================== *)
(** ** JavaScript values *)
(* ===================================================================== *)

#[warnings="-register-all"] Inductive jsval : Type :=
| VUndefined
| VNull
| VBool (b : bool)
| VNumber (n : number)
| VString (s : string)
| VSymbol (id : nat)
| VBigInt (z : Z)
| VObject (callable : bool) (props : list (string * jsval)).

(** The outcome of evaluating an expression or calling a function. *)
Inductive completion (A : Type) : Type :=
| Normal (a : A)
| Throw (e : jsval).
Arguments Normal {A} a.
Arguments Throw {A} e.

Definition TypeError (msg : string) : jsval :=
  VObject false
    [("name", VString "TypeError"); ("message", VString msg)]%string.

(** [typeof v === 'function'] *)
Definition isFunction (v : jsval) : bool :=
  match v with VObject true _ => true | _ => false end.

(** Modelled from the spec: [isObject.js] is imported by the source but is
    not among the source files.  The constructor reads the policy options
    only from an options object; the test is lodash's [isObject]: true for
    objects and functions, false for [null] and for every primitive. *)
Definition isObject (v : jsval) : bool :=
  match v with VObject _ _ => true | _ => false end.

(** [!!v] *)
Definition ToBoolean (v : jsval) : bool :=
  match v with
  | VUndefined | VNull => false
  | VBool b => b
  | VNumber n => truthy n
  | VString s => negb (String.eqb s "")
  | VSymbol _ => true
  | VBigInt z => negb (Z.eqb z 0)
  | VObject _ _ => true
  end.

(** [v === 0] and [v !== 0] *)
Definition strictEqualsZero (v : jsval) : bool :=
  match v with VNumber n => isZero n | _ => false end.

Fixpoint assoc (key : string) (props : list (string * jsval)) : option jsval :=
  match props with
  | [] => None
  | (k, v) :: rest => if String.eqb key k then Some v else assoc key rest
  end.

Definition propsOf (v : jsval) : list (string * jsval) :=
  match v with VObject _ props => props | _ => [] end.

(** [key in obj], for [obj] an object. *)
Definition hasProperty (key : string) (obj : jsval) : bool :=
  match assoc key (propsOf obj) with Some _ => true | None => false end.

(** [obj.key], for [obj] an object. *)
Definition getProperty (obj : jsval) (key : string) : jsval :=
  match assoc key (propsOf obj) with Some v => v | None => VUndefined end.

(** What the constructor needs from the realm it runs in.  The conversion
    of non-empty strings and of objects to numbers belongs to the
    language, not to the repository: it is a parameter.  Converting an
    object runs its [valueOf]/[toString] and may throw. *)
Record Realm : Type := {
  hasRequestAnimationFrame : bool;
  StringToNumber : string -> number;
  ObjectToNumber : bool -> list (string * jsval) -> completion number
}.

(** [+v]: the empty string converts to [0]; unary plus throws a
    [TypeError] on symbols and on BigInts. *)
Definition ToNumber (realm : Realm) (v : jsval) : completion number :=
  match v with
  | VUndefined => Normal NaN
  | VNull => Normal zero
  | VBool b => Normal (if b then Fin 1%Q else zero)
  | VNumber n => Normal n
  | VString s =>
      Normal (if String.eqb s "" then zero else StringToNumber realm s)
  | VSymbol _ => Throw (TypeError "Cannot convert a Symbol value to a number")
  | VBigInt _ => Throw (TypeError "Cannot convert a BigInt value to a number")
  | VObject c props => ObjectToNumber realm c props
  end.

(** [+v || 0] *)
Definition numberOrZero (realm : Realm) (v : jsval) : completion number :=
  match ToNumber realm v with
  | Normal n => Normal (if truthy n then n else zero)
  | Throw e => Throw e
  end.

(* ===================================================================== *)
(** ** The closure: constants, variables, host timers *)
(* ===================================================================== *)

(** The variables of the closure that change after construction
    ([let lastArgs, lastThis, result, timerId, lastCallTime] and
    [lastInvokeTime]).  [None] and [VUndefined] stand for [undefined]. *)
Record State : Type := {
  lastArgs : option (list jsval);
  lastThis : jsval;
  result : jsval;
  timerId : option nat;
  lastCallTime : option Z;
  lastInvokeTime : Z
}.

(** One call of the target: receiver, arguments, and the closure state at
    the moment of the call. *)
Record Call : Type := {
  callThis : jsval;
  callArgs : list jsval;
  callState : State
}.

(** What calling [func] does, given the calls made before. *)
Definition Target : Type :=
  list Call -> jsval -> list jsval -> completion jsval.

(** The variables of the closure that are fixed once [debounce] returns.
    [maxWait] stays [undefined] ([None]) unless the option is present. *)
Record Debounced : Type := {
  func : Target;
  wait : number;
  maxWait : option number;
  leading : bool;
  maxing : bool;
  trailing : bool;
  useRAF : bool
}.

(** The host: the callbacks registered with [setTimeout] and not cleared,
    with their delay; those registered with [requestAnimationFrame] and
    not cancelled; and the next handle to hand out.  When a registered
    callback runs is up to the run (the [Expire] events below). *)
Record Host : Type := {
  nextHandle : nat;
  timeouts : list (nat * number);
  frames : list nat
}.

Record World : Type := {
  state : State;
  host : Host;
  calls : list Call
}.

Definition initialState : State :=
  {| lastArgs := None; lastThis := VUndefined; result := VUndefined;
     timerId := None; lastCallTime := None; lastInvokeTime := 0 |}.

Definition initialWorld : World :=
  {| state := initialState;
     host := {| nextHandle := 1; timeouts := []; frames := [] |};
     calls := [] |}.

(** *** The constructor, lines 65-98 *)

Definition bindC {A B : Type} (c : completion A) (k : A -> completion B)
  : completion B :=
  match c with Normal a => k a | Throw e => Throw e end.

Definition debounce (realm : Realm) (func : jsval) (body : Target)
    (wait options : jsval) : completion Debounced :=
  let useRAF :=
    negb (ToBoolean wait) && negb (strictEqualsZero wait)
    && hasRequestAnimationFrame realm in
  if negb (isFunction func) then Throw (TypeError "Expected a function")
  else
    bindC (numberOrZero realm wait) (fun wait =>
    if isObject options then
      let leading := ToBoolean (getProperty options "leading") in
      let maxing := hasProperty "maxWait" options in
      bindC (if maxing
             then bindC (numberOrZero realm (getProperty options "maxWait"))
                        (fun m => Normal (Some (max m wait)))
             else Normal None) (fun maxWait =>
      let trailing :=
        if hasProperty "trailing" options
        then ToBoolean (getProperty options "trailing") else true in
      Normal {| func := body; wait := wait; maxWait := maxWait;
                leading := leading; maxing := maxing; trailing := trailing;
                useRAF := useRAF |})
    else
      Normal {| func := body; wait := wait; maxWait := None;
                leading := false; maxing := false; trailing := true;
                useRAF := useRAF |}).

(* ===================================================================== *)
(** ** A state monad in which a throw keeps the state *)
(* ===================================================================== *)

Definition M (A : Type) : Type := World -> completion A * World.

Definition ret {A : Type} (a : A) : M A := fun w => (Normal a, w).

Definition bind {A B : Type} (m : M A) (k : A -> M B) : M B :=
  fun w =>
    match m w with
    | (Normal a, w') => k a w'
    | (Throw e, w') => (Throw e, w')
    end.

Declare Scope js_scope.
Delimit Scope js_scope with js.
Notation "x <- m ;; k" := (bind m (fun x => k))
  (at level 61, m at next level, right associativity) : js_scope.
Notation "m ;; k" := (bind m (fun _ => k))
  (at level 61, right associativity) : js_scope.
Local Open Scope js_scope.

(** Reading and assigning the closure variables. *)
Definition gets {A : Type} (f : State -> A) : M A :=
  fun w => (Normal (f (state w)), w).

Definition modify (f : State -> State) : M unit :=
  fun w => (Normal tt,
            {| state := f (state w); host := host w; calls := calls w |}).

Definition set_lastArgs (v : option (list jsval)) (s : State) : State :=
  {| lastArgs := v; lastThis := lastThis s; result := result s;
     timerId := timerId s; lastCallTime := lastCallTime s;
     lastInvokeTime := lastInvokeTime s |}.

Definition set_lastThis (v : jsval) (s : State) : State :=
  {| lastArgs := lastArgs s; lastThis := v; result := result s;
     timerId := timerId s; lastCallTime := lastCallTime s;
     lastInvokeTime := lastInvokeTime s |}.

Definition set_result (v : jsval) (s : State) : State :=
  {| lastArgs := lastArgs s; lastThis := lastThis s; result := v;
     timerId := timerId s; lastCallTime := lastCallTime s;
     lastInvokeTime := lastInvokeTime s |}.

Definition set_timerId (v : option nat) (s : State) : State :=
  {| lastArgs := lastArgs s; lastThis := lastThis s; result := result s;
     timerId := v; lastCallTime := lastCallTime s;
     lastInvokeTime := lastInvokeTime s |}.

Definition set_lastCallTime (v : option Z) (s : State) : State :=
  {| lastArgs := lastArgs s; lastThis := lastThis s; result := result s;
     timerId := timerId s; lastCallTime := v;
     lastInvokeTime := lastInvokeTime s |}.

Definition set_lastInvokeTime (v : Z) (s : State) : State :=
  {| lastArgs := lastArgs s; lastThis := lastThis s; result := result s;
     timerId := timerId s; lastCallTime := lastCallTime s;
     lastInvokeTime := v |}.

(** The host primitives.  None of them throws. *)
Definition liftHost {A : Type} (f : Host -> A * Host) : M A :=
  fun w => let (a, h) := f (host w) in
           (Normal a, {| state := state w; host := h; calls := calls w |}).

Definition setTimeout (delay : number) : M nat :=
  liftHost (fun h =>
    (nextHandle h,
     {| nextHandle := S (nextHandle h);
        timeouts := timeouts h ++ [(nextHandle h, delay)];
        frames := frames h |})).

Definition clearTimeout (id : nat) : M unit :=
  liftHost (fun h =>
    (tt,
     {| nextHandle := nextHandle h;
        timeouts := filter (fun e => negb (Nat.eqb (fst e) id)) (timeouts h);
        frames := frames h |})).

Definition requestAnimationFrame : M nat :=
  liftHost (fun h =>
    (nextHandle h,
     {| nextHandle := S (nextHandle h);
        timeouts := timeouts h;
        frames := frames h ++ [nextHandle h] |})).

(** [cancelAnimationFrame(id)]; [id] may be [undefined]. *)
Definition cancelAnimationFrame (id : option nat) : M unit :=
  liftHost (fun h =>
    (tt,
     {| nextHandle := nextHandle h;
        timeouts := timeouts h;
        frames := match id with
                  | Some i => filter (fun e => negb (Nat.eqb e i)) (frames h)
                  | None => frames h
                  end |})).

(** [time - x] for [x] a time stamp or [undefined]. *)
Definition timeOrUndefined (x : option Z) : number :=
  match x with Some t => ofTime t | None => NaN end.

(** A number or [undefined] used as an operand: [undefined] is [NaN]. *)
Definition numberOrUndefined (x : option number) : number :=
  match x with Some n => n | None => NaN end.

Definition isUndefined {A : Type} (x : option A) : bool :=
  match x with Some _ => false | None => true end.

(* ===================================================================== *)
(** ** The functions of the closure, lines 101-261 *)
(* ===================================================================== *)

Section Closure.

Variable d : Debounced.

(** [func.apply(thisArg, args)]: [apply] with [undefined] for the
    argument list calls with no argument. *)
Definition applyFunc (thisArg : jsval) (args : option (list jsval))
  : M jsval :=
  fun w =>
    let argv := match args with Some a => a | None => [] end in
    (func d (calls w) thisArg argv,
     {| state := state w; host := host w;
        calls := calls w ++ [{| callThis := thisArg; callArgs := argv;
                                callState := state w |}] |}).

Definition invokeFunc (time : Z) : M jsval :=
  args <- gets lastArgs ;;
  thisArg <- gets lastThis ;;
  modify (set_lastThis VUndefined) ;;
  modify (set_lastArgs None) ;;
  modify (set_lastInvokeTime time) ;;
  r <- applyFunc thisArg args ;;
  modify (set_result r) ;;
  ret r.

(** [pendingFunc] is [timerExpired] at every call site and is left out. *)
Definition startTimer (delay : number) : M nat :=
  if useRAF d then
    id <- gets timerId ;;
    cancelAnimationFrame id ;;
    requestAnimationFrame
  else
    setTimeout delay.

Definition cancelTimer (id : nat) : M unit :=
  if useRAF d then cancelAnimationFrame (Some id)
  else clearTimeout id.

Definition leadingEdge (time : Z) : M jsval :=
  modify (set_lastInvokeTime time) ;;
  id <- startTimer (wait d) ;;
  modify (set_timerId (Some id)) ;;
  if leading d then invokeFunc time else gets result.

Definition remainingWait (s : State) (time : Z) : number :=
  let timeSinceLastCall :=
    sub (ofTime time) (timeOrUndefined (lastCallTime s)) in
  let timeSinceLastInvoke := sub (ofTime time) (ofTime (lastInvokeTime s)) in
  let timeWaiting := sub (wait d) timeSinceLastCall in
  if maxing d
  then min timeWaiting (sub (numberOrUndefined (maxWait d)) timeSinceLastInvoke)
  else timeWaiting.

Definition shouldInvoke (s : State) (time : Z) : bool :=
  let timeSinceLastCall :=
    sub (ofTime time) (timeOrUndefined (lastCallTime s)) in
  let timeSinceLastInvoke := sub (ofTime time) (ofTime (lastInvokeTime s)) in
  isUndefined (lastCallTime s)
  || ge timeSinceLastCall (wait d)
  || lt timeSinceLastCall zero
  || (maxing d && ge timeSinceLastInvoke (numberOrUndefined (maxWait d))).

Definition trailingEdge (time : Z) : M jsval :=
  modify (set_timerId None) ;;
  args <- gets lastArgs ;;
  if trailing d && negb (isUndefined args) then
    invokeFunc time
  else
    modify (set_lastThis VUndefined) ;;
    modify (set_lastArgs None) ;;
    gets result.

(** [time] is the value of [Date.now()] when the timer fires. *)
Definition timerExpired (time : Z) : M jsval :=
  invoke <- gets (fun s => shouldInvoke s time) ;;
  if invoke then
    trailingEdge time
  else
    delay <- gets (fun s => remainingWait s time) ;;
    id <- startTimer delay ;;
    modify (set_timerId (Some id)) ;;
    ret VUndefined.

Definition cancel : M unit :=
  id <- gets timerId ;;
  match id with
  | Some i => cancelTimer i
  | None => ret tt
  end ;;
  modify (set_lastInvokeTime 0) ;;
  modify (set_timerId None) ;;
  modify (set_lastThis VUndefined) ;;
  modify (set_lastCallTime None) ;;
  modify (set_lastArgs None).

(** [time] is the value of [Date.now()], read only when a timer is
    pending. *)
Definition flush (time : Z) : M jsval :=
  id <- gets timerId ;;
  if isUndefined id then gets result else trailingEdge time.

Definition pending (s : State) : bool := negb (isUndefined (timerId s)).

(** The end of [debounced], lines 257-260. *)
Definition debouncedRest : M jsval :=
  id <- gets timerId ;;
  (if isUndefined id then
     id' <- startTimer (wait d) ;;
     modify (set_timerId (Some id'))
   else ret tt) ;;
  gets result.

(** [time] is the value of [Date.now()]; [this] the receiver and [args]
    the rest arguments of the call. *)
Definition debounced (time : Z) (this : jsval) (args : list jsval)
  : M jsval :=
  isInvoking <- gets (fun s => shouldInvoke s time) ;;
  modify (set_lastArgs (Some args)) ;;
  modify (set_lastThis this) ;;
  modify (set_lastCallTime (Some time)) ;;
  if isInvoking then
    id <- gets timerId ;;
    if isUndefined id then
      (* [leadingEdge(lastCallTime)]: [lastCallTime] is [time] here *)
      leadingEdge time
    else if maxing d then
      id' <- startTimer (wait d) ;;
      modify (set_timerId (Some id')) ;;
      invokeFunc time
    else debouncedRest
  else debouncedRest.

(** *** Runs: what may happen to an instance *)

Inductive Event : Type :=
| Trigger (time : Z) (this : jsval) (args : list jsval)
| Expire (time : Z)
| Flush (time : Z)
| Cancel.

(** The world after an event; a throw goes to the caller of the event
    and the closure keeps the state it had when the target threw. *)
Definition step (w : World) (e : Event) : World :=
  match e with
  | Trigger time this args => snd (debounced time this args w)
  | Expire time => snd (timerExpired time w)
  | Flush time => snd (flush time w)
  | Cancel => snd (cancel w)
  end.

Definition run (w : World) (es : list Event) : World :=
  fold_left step es w.

(** An event with the completion its caller sees. *)
Definition perform (w : World) (e : Event) : completion jsval * World :=
  match e with
  | Trigger time this args => debounced time this args w
  | Expire time => timerExpired time w
  | Flush time => flush time w
  | Cancel => (Normal VUndefined, snd (cancel w))
  end.

(** The clock value an event reads. *)
Definition eventTime (e : Event) : option Z :=
  match e with
  | Trigger time _ _ | Expire time | Flush time => Some time
  | Cancel => None
  end.

Definition isTrigger (e : Event) : bool :=
  match e with Trigger _ _ _ => true | _ => false end.

(** A run without trigger: timers firing, flushes and cancels only. *)
Definition quiet (es : list Event) : bool :=
  forallb (fun e => negb (isTrigger e)) es.

(** The receiver and arguments the triggers of a run supply. *)
Fixpoint supplied (es : list Event) : list (jsval * list jsval) :=
  match es with
  | [] => []
  | Trigger _ this args :: rest => (this, args) :: supplied rest
  | _ :: rest => supplied rest
  end.

End Closure.

(** The arguments queued in [w], if any, are among [S] with their
    receiver. *)
Definition queuedIn (S : list (jsval * list jsval)) (w : World) : Prop :=
  forall a, lastArgs (state w) = Some a -> In (lastThis (state w), a) S.

(* ===================================================================== *)
(** ** Sample instances and runs *)
(* ===================================================================== *)

Module Samples.

(** A realm with [requestAnimationFrame] in which no string but the
    empty one is numeric and objects convert to [NaN]. *)
Definition browser : Realm :=
  {| hasRequestAnimationFrame := true;
     StringToNumber := fun _ => NaN;
     ObjectToNumber := fun _ _ => Normal NaN |}.

(** The same realm without [requestAnimationFrame]. *)
Definition node : Realm :=
  {| hasRequestAnimationFrame := false;
     StringToNumber := fun _ => NaN;
     ObjectToNumber := fun _ _ => Normal NaN |}.

Definition fn : jsval := VObject true [].

(** A target that returns its first argument. *)
Definition first : Target :=
  fun _ _ args => Normal (hd VUndefined args).

(** A target that always throws. *)
Definition failing : Target :=
  fun _ _ _ => Throw (VString "boom").

Definition ms (n : Z) : jsval := VNumber (ofTime n).

Definition A : jsval := VString "A".
Definition B : jsval := VString "B".
Definition C : jsval := VString "C".

(** [debounce(first, 100)] *)
Definition plain : Debounced :=
  {| func := first; wait := ofTime 100; maxWait := None;
     leading := false; maxing := false; trailing := true;
     useRAF := false |}.

(** [debounce(first, 100, { leading: true })] *)
Definition eager : Debounced :=
  {| func := first; wait := ofTime 100; maxWait := None;
     leading := true; maxing := false; trailing := true;
     useRAF := false |}.

(** [debounce(first, 100, { trailing: false })] *)
Definition noTrailing : Debounced :=
  {| func := first; wait := ofTime 100; maxWait := None;
     leading := false; maxing := false; trailing := false;
     useRAF := false |}.

(** [debounce(first, 100, { maxWait: 150 })] *)
Definition capped : Debounced :=
  {| func := first; wait := ofTime 100; maxWait := Some (ofTime 150);
     leading := false; maxing := true; trailing := true;
     useRAF := false |}.

End Samples.

(* ===================================================================== *)
(** ** Vocabulary for the properties of runs *)
(* ===================================================================== *)

Section Vocabulary.

Variable d : Debounced.

(** The decision table of the closure: whether an event calls the
    target, read off [debounced] (lines 244-255), [timerExpired] and
    [trailingEdge] (lines 181-183 and 202-204) and [flush] (line 223). *)
Definition invokes (w : World) (e : Event) : bool :=
  match e with
  | Trigger time _ _ =>
      shouldInvoke d (state w) time
      && (if isUndefined (timerId (state w)) then leading d else maxing d)
  | Expire time =>
      shouldInvoke d (state w) time
      && trailing d && negb (isUndefined (lastArgs (state w)))
  | Flush _ =>
      negb (isUndefined (timerId (state w)))
      && trailing d && negb (isUndefined (lastArgs (state w)))
  | Cancel => false
  end.

(** What the caller of an event gets when the target is not called. *)
Definition idleValue (w : World) (e : Event) : jsval :=
  match e with
  | Trigger _ _ _ | Flush _ => result (state w)
  | Expire time =>
      if shouldInvoke d (state w) time then result (state w) else VUndefined
  | Cancel => VUndefined
  end.

(** The receiver and arguments the target gets when an event calls it. *)
Definition delivered (w : World) (e : Event) : jsval * list jsval :=
  match e with
  | Trigger _ this args => (this, args)
  | _ => (lastThis (state w),
          match lastArgs (state w) with Some a => a | None => [] end)
  end.

(** A burst: triggers at any time, and timers that fire while
    [shouldInvoke] does not hold yet. *)
Fixpoint early (w : World) (es : list Event) : bool :=
  match es with
  | [] => true
  | e :: rest =>
      match e with
      | Trigger _ _ _ => true
      | Expire time => negb (shouldInvoke d (state w) time)
      | Flush _ | Cancel => false
      end
      && early (step d w e) rest
  end.

(** The value returned by the last call of the log that returned, [r] if
    there is none; [before] is the log that precedes [later]. *)
Fixpoint returnedFrom (before later : list Call) (r : jsval) : jsval :=
  match later with
  | [] => r
  | c :: rest =>
      returnedFrom (before ++ [c]) rest
        match func d before (callThis c) (callArgs c) with
        | Normal v => v
        | Throw _ => r
        end
  end.

Definition lastReturned (log : list Call) : jsval :=
  returnedFrom [] log VUndefined.

(** The handle is registered with the primitive of the instance's mode. *)
Definition registered (h : nat) (host : Host) : Prop :=
  if useRAF d then In h (frames host) else In h (map fst (timeouts host)).

End Vocabulary.

(** The receiver and arguments queued after the triggers of a run, [q]
    if it has none. *)
Fixpoint lastSupplied (es : list Event) (q : jsval * option (list jsval))
  : jsval * option (list jsval) :=
  match es with
  | [] => q
  | Trigger _ this args :: rest => lastSupplied rest (this, Some args)
  | _ :: rest => lastSupplied rest q
  end.

(** What the closure variables keep between events: queued arguments
    have a timer, a timer has a recorded trigger, and a receiver is kept
    only with arguments. *)
Definition consistent (s : State) : Prop :=
  (lastArgs s <> None -> timerId s <> None)
  /\ (timerId s <> None -> lastCallTime s <> None)
  /\ (lastThis s <> VUndefined -> lastArgs s <> None).

(** The closure variables that hold what is queued. *)
Definition queue (w : World) : jsval * option (list jsval) :=
  (lastThis (state w), lastArgs (state w)).

(** More sample instances. *)
Module Fixtures.

(** [debounce(first, 100, { leading: true, trailing: false })] *)
Definition eagerOnly : Debounced :=
  {| func := Samples.first; wait := ofTime 100; maxWait := None;
     leading := true; maxing := false; trailing := false;
     useRAF := false |}.

(** [debounce(first)] where [requestAnimationFrame] exists. *)
Definition framed : Debounced :=
  {| func := Samples.first; wait := zero; maxWait := None;
     leading := false; maxing := false; trailing := true;
     useRAF := true |}.

End Fixtures.

(* ===================================================================== *)
(** ** Targets that call back into their own instance *)
(* ===================================================================== *)

(** What a target does during one call when it has the debounced
    function in scope: it may call [d.cancel()], [d.flush()],
    [d.pending()] and [d(...)] any number of times, use what they give
    (a value or a caught error), and at last return or throw.  [time] is
    what [Date.now()] gives during the nested call. *)
Inductive Script : Type :=
| Finish (c : completion jsval)
| CallCancel (k : Script)
| CallFlush (time : Z) (k : completion jsval -> Script)
| CallPending (k : bool -> Script)
| CallDebounced (time : Z) (this : jsval) (args : list jsval)
    (k : completion jsval -> Script).

(** A target of this kind, given the calls made before. *)
Definition ReTarget : Type := list Call -> jsval -> list jsval -> Script.

(** The functions of the closure that reach [func.apply], lines 101-111,
    130-143, 178-207, 222-224 and 230-261, with the call of the target
    as a parameter [apply]; the other functions are shared. *)
Module Reentrant.

Section WithApply.

Variable d : Debounced.
Variable apply : jsval -> option (list jsval) -> M jsval.

Definition invokeFunc (time : Z) : M jsval :=
  args <- gets lastArgs ;;
  thisArg <- gets lastThis ;;
  modify (set_lastThis VUndefined) ;;
  modify (set_lastArgs None) ;;
  modify (set_lastInvokeTime time) ;;
  r <- apply thisArg args ;;
  modify (set_result r) ;;
  ret r.

Definition leadingEdge (time : Z) : M jsval :=
  modify (set_lastInvokeTime time) ;;
  id <- startTimer d (wait d) ;;
  modify (set_timerId (Some id)) ;;
  if leading d then invokeFunc time else gets result.

Definition trailingEdge (time : Z) : M jsval :=
  modify (set_timerId None) ;;
  args <- gets lastArgs ;;
  if trailing d && negb (isUndefined args) then
    invokeFunc time
  else
    modify (set_lastThis VUndefined) ;;
    modify (set_lastArgs None) ;;
    gets result.

Definition timerExpired (time : Z) : M jsval :=
  invoke <- gets (fun s => shouldInvoke d s time) ;;
  if invoke then
    trailingEdge time
  else
    delay <- gets (fun s => remainingWait d s time) ;;
    id <- startTimer d delay ;;
    modify (set_timerId (Some id)) ;;
    ret VUndefined.

Definition flush (time : Z) : M jsval :=
  id <- gets timerId ;;
  if isUndefined id then gets result else trailingEdge time.

Definition debounced (time : Z) (this : jsval) (args : list jsval)
  : M jsval :=
  isInvoking <- gets (fun s => shouldInvoke d s time) ;;
  modify (set_lastArgs (Some args)) ;;
  modify (set_lastThis this) ;;
  modify (set_lastCallTime (Some time)) ;;
  if isInvoking then
    id <- gets timerId ;;
    if isUndefined id then
      leadingEdge time
    else if maxing d then
      id' <- startTimer d (wait d) ;;
      modify (set_timerId (Some id')) ;;
      invokeFunc time
    else debouncedRest d
  else debouncedRest d.

End WithApply.

End Reentrant.

Definition RangeError (msg : string) : jsval :=
  VObject false
    [("name", VString "RangeError"); ("message", VString msg)]%string.

Section ReentrantTarget.

Variable d : Debounced.

(** One call of a target, with the nested calls it makes. *)
Fixpoint runScript (apply : jsval -> option (list jsval) -> M jsval)
    (s : Script) : M jsval :=
  match s with
  | Finish c => fun w => (c, w)
  | CallCancel k => fun w => runScript apply k (snd (cancel d w))
  | CallFlush time k =>
      fun w =>
        let (c, w') := Reentrant.flush d apply time w in
        runScript apply (k c) w'
  | CallPending k => fun w => runScript apply (k (pending (state w))) w
  | CallDebounced time this args k =>
      fun w =>
        let (c, w') := Reentrant.debounced d apply time this args w in
        runScript apply (k c) w'
  end.

(** [func.apply(thisArg, args)] for a target that may call back.  The
    call stack is finite: a call nested deeper than [depth] throws a
    [RangeError]. *)
Fixpoint applyTarget (target : ReTarget) (depth : nat) (thisArg : jsval)
    (args : option (list jsval)) : M jsval :=
  match depth with
  | O => fun w => (Throw (RangeError "Maximum call stack size exceeded"), w)
  | S n =>
      fun w =>
        let argv := match args with Some a => a | None => [] end in
        runScript (applyTarget target n) (target (calls w) thisArg argv)
          {| state := state w; host := host w;
             calls := calls w ++ [{| callThis := thisArg; callArgs := argv;
                                     callState := state w |}] |}
  end.

(** The pending handle is one the host holds for the instance's mode. *)
Definition timerLive (w : World) : Prop :=
  exists h, timerId (state w) = Some h /\ registered d h (host w).

End ReentrantTarget.

(** A target that never calls [cancel()] or [flush()] of its instance. *)
Inductive Harmless : Script -> Prop :=
| Harmless_Finish (c : completion jsval) : Harmless (Finish c)
| Harmless_Pending (k : bool -> Script) :
    (forall b, Harmless (k b)) -> Harmless (CallPending k)
| Harmless_Debounced (time : Z) (this : jsval) (args : list jsval)
    (k : completion jsval -> Script) :
    (forall c, Harmless (k c)) -> Harmless (CallDebounced time this args k).

(** A target that does not call back, as a script. *)
Definition opaque (body : Target) : ReTarget :=
  fun log this args => Finish (body log this args).

(** Sample targets that call back. *)
Module Callbacks.

(** [() => d.cancel()] *)
Definition cancelling : ReTarget :=
  fun _ _ _ => CallCancel (Finish (Normal VUndefined)).

(** [() => d.flush()] *)
Definition flushing : ReTarget :=
  fun _ _ _ => CallFlush 0 (fun c => Finish c).

(** [() => d.pending()] *)
Definition asking : ReTarget :=
  fun _ _ _ => CallPending (fun b => Finish (Normal (VBool b))).

(** [x => { if (x !== 'again') d('again'); return x }] *)
Definition again : ReTarget :=
  fun _ _ args =>
    match args with
    | [VString "again"] => Finish (Normal (VString "again"))
    | _ => CallDebounced 0 VUndefined [VString "again"]
             (fun _ => Finish (Normal (hd VUndefined args)))
    end%string.

End Callbacks.

(* ===================================================================== *)
(** ** Tactics: evaluating the closure symbolically *)
(* ===================================================================== *)

Ltac unfold_ops :=
  unfold step, perform, debounced, debouncedRest, flush, cancel,
    timerExpired, trailingEdge, leadingEdge, invokeFunc, applyFunc,
    startTimer, cancelTimer, setTimeout, clearTimeout,
    requestAnimationFrame, cancelAnimationFrame, liftHost,
    bind, gets, modify, ret in *.

(** Case analysis on a test that blocks evaluation, innermost first. *)
Ltac split_match :=
  match goal with
  | |- context [match ?x with _ => _ end] =>
      lazymatch x with
      | context [match _ with _ => _ end] => fail
      | _ => destruct x eqn:?
      end
  end.

Ltac run_ops := unfold_ops; simpl in *; repeat (split_match; simpl in *).

(* ===================================================================== *)
(** ** Numbers: elapsed time and order *)
(* ===================================================================== *)

Lemma sub_ofTime (t u : Z) : sub (ofTime t) (ofTime u) = ofTime (t - u).
Proof.
  unfold sub, ofTime. f_equal.
  unfold Z.sub. now rewrite inject_Z_plus, inject_Z_opp.
Qed.

Lemma lt_ofTime_zero (x : Z) : lt (ofTime x) zero = (x <? 0)%Z.
Proof.
  unfold lt, ofTime, zero, Qle_bool. simpl.
  rewrite Z.mul_1_r. now rewrite Z.ltb_antisym.
Qed.

Lemma ge_ofTime_zero (x : Z) : ge (ofTime x) zero = (0 <=? x)%Z.
Proof.
  unfold ge, le, ofTime, zero, Qle_bool. simpl. now rewrite Z.mul_1_r.
Qed.

Lemma le_refl (a : number) : isNaN a = false -> le a a = true.
Proof.
  destruct a; simpl; try easy. intros _. apply Qle_bool_iff, Qle_refl.
Qed.

Lemma le_total (a b : number) :
  isNaN a = false -> isNaN b = false -> le a b = false -> le b a = true.
Proof.
  destruct a, b; simpl; try easy. intros _ _ H.
  apply Qle_bool_iff. destruct (Qlt_le_dec q0 q) as [L | L].
  - now apply Qlt_le_weak.
  - apply Qle_bool_iff in L. congruence.
Qed.

Lemma le_max_r (a b : number) :
  isNaN a = false -> isNaN b = false -> le b (max a b) = true.
Proof.
  intros Ha Hb. unfold max. rewrite Ha, Hb. simpl.
  destruct (le a b) eqn:E.
  - now apply le_refl.
  - now apply le_total.
Qed.

Lemma truthy_not_NaN (n : number) :
  isNaN (if truthy n then n else zero) = false.
Proof. destruct n; reflexivity || (simpl; now destruct (truthy (Fin q))). Qed.

(* ===================================================================== *)
(** ** The decision to invoke *)
(* ===================================================================== *)

(** C1. For every call time [t], [shouldInvoke] (the one predicate that
    both [debounced] and [timerExpired] evaluate) is true if and only if
    no trigger was recorded ([lastCallTime] is unset), or
    [t - lastCallTime >= wait], or [t - lastCallTime < 0], or maxing is
    on and [t - lastInvokeTime >= maxWait]. *)
Theorem shouldInvoke_iff (d : Debounced) (s : State) (t : Z) :
  shouldInvoke d s t = true <->
    lastCallTime s = None
    \/ (exists lc, lastCallTime s = Some lc
                   /\ ge (ofTime (t - lc)) (wait d) = true)
    \/ (exists lc, lastCallTime s = Some lc /\ (t - lc < 0)%Z)
    \/ (maxing d = true
        /\ ge (ofTime (t - lastInvokeTime s))
              (numberOrUndefined (maxWait d)) = true).
Proof.
  unfold shouldInvoke. rewrite sub_ofTime.
  destruct (lastCallTime s) as [lc |]; cbv [timeOrUndefined isUndefined].
  - rewrite sub_ofTime, lt_ofTime_zero.
    rewrite !orb_true_iff, andb_true_iff, Z.ltb_lt.
    split.
    + intros [[[F | G] | L] | M].
      * discriminate.
      * right; left. now exists lc.
      * right; right; left. now exists lc.
      * now right; right; right.
    + intros [N | [(lc' & E & G) | [(lc' & E & L) | M]]].
      * discriminate.
      * injection E as <-. now left; left; right.
      * injection E as <-. now left; right.
      * now right.
  - split; intros _; [now left | reflexivity].
Qed.

(* ===================================================================== *)
(** ** The constructor *)
(* ===================================================================== *)

Section Constructor.

Variable realm : Realm.
Variables (f : jsval) (body : Target) (wt opts : jsval).

(** What a successful construction fixes. *)
Lemma debounce_Normal (d : Debounced) :
  debounce realm f body wt opts = Normal d ->
  isFunction f = true
  /\ numberOrZero realm wt = Normal (wait d)
  /\ func d = body
  /\ useRAF d = negb (ToBoolean wt) && negb (strictEqualsZero wt)
                && hasRequestAnimationFrame realm
  /\ maxing d = isObject opts && hasProperty "maxWait" opts
  /\ (maxing d = true ->
      exists m, numberOrZero realm (getProperty opts "maxWait") = Normal m
                /\ maxWait d = Some (max m (wait d)))
  /\ (maxing d = false -> maxWait d = None).
Proof.
  unfold debounce. destruct (isFunction f); simpl; [| discriminate].
  destruct (numberOrZero realm wt) as [w |]; simpl; [| discriminate].
  destruct (isObject opts); simpl.
  - destruct (hasProperty "maxWait" opts); simpl.
    + destruct (numberOrZero realm (getProperty opts "maxWait")) as [m |];
        simpl; [| discriminate].
      intros [= <-]; simpl. repeat split; try easy.
      intros _. now exists m.
    + intros [= <-]; simpl. repeat split; easy.
  - intros [= <-]; simpl. repeat split; easy.
Qed.

(** In frame mode [wait] is [0]: the values that select the mode are
    falsy and all of them convert to [NaN] or to [0]. *)
Lemma useRAF_wait_zero (d : Debounced) :
  debounce realm f body wt opts = Normal d ->
  useRAF d = true -> wait d = zero.
Proof.
  intros H U. apply debounce_Normal in H.
  destruct H as (_ & W & _ & R & _). rewrite R in U.
  apply andb_true_iff in U as [U _]. apply andb_true_iff in U as [U _].
  apply negb_true_iff in U. revert W. unfold numberOrZero.
  destruct wt; simpl in *; try discriminate.
  - now intros [= <-].
  - now intros [= <-].
  - subst b. now intros [= <-].
  - rewrite U. now intros [= <-].
  - apply negb_false_iff in U. rewrite U. now intros [= <-].
Qed.

End Constructor.

(** C4 (amended). For every construction input with a callable target
    whose [wait] and [maxWait] values convert to a number without
    throwing: construction succeeds; [wait] is its numeric coercion, and
    [0] when that coercion is [NaN]; when the options object has a
    [maxWait] property the stored [maxWait] is
    [max (coercion of maxWait, 0 when NaN) wait], and otherwise it stays
    unset; the stored [maxWait] is never below [wait]. *)
Theorem debounce_coerces (realm : Realm) (f : jsval) (body : Target)
    (wt opts : jsval) (w m : number) :
  isFunction f = true ->
  ToNumber realm wt = Normal w ->
  ToNumber realm (getProperty opts "maxWait") = Normal m ->
  exists d,
    debounce realm f body wt opts = Normal d
    /\ wait d = (if truthy w then w else zero)
    /\ (isNaN w = true -> wait d = zero)
    /\ maxing d = isObject opts && hasProperty "maxWait" opts
    /\ maxWait d =
         (if maxing d
          then Some (max (if truthy m then m else zero) (wait d))
          else None)
    /\ (forall mw, maxWait d = Some mw -> le (wait d) mw = true).
Proof.
  intros F W MW. unfold debounce, numberOrZero. rewrite F, W. simpl.
  assert (N : isNaN w = true -> (if truthy w then w else zero) = zero)
    by (destruct w; simpl; easy).
  destruct (isObject opts); simpl.
  - destruct (hasProperty "maxWait" opts); simpl.
    + rewrite MW. simpl. eexists. split; [reflexivity |]. simpl.
      repeat split; try assumption.
      intros mw [= <-]. apply le_max_r; apply truthy_not_NaN.
    + eexists. split; [reflexivity |]. simpl.
      repeat split; try assumption. discriminate.
  - eexists. split; [reflexivity |]. simpl.
    repeat split; try assumption. discriminate.
Qed.

(** [debounce(fn, 'abc', { maxWait: 50 })] on a realm in which ['abc'] is
    not numeric: [wait] is [0] and [maxWait] is [50]. *)
Lemma debounce_coerces_witness :
  exists d,
    debounce Samples.node Samples.fn Samples.first (VString "abc")
      (VObject false [("maxWait", Samples.ms 50)]%string) = Normal d
    /\ wait d = zero
    /\ maxWait d = Some (ofTime 50).
Proof.
  destruct (@debounce_coerces Samples.node Samples.fn Samples.first
              (VString "abc")
              (VObject false [("maxWait", Samples.ms 50)]%string)
              NaN (ofTime 50))
    as (d & E & W & _ & _ & M & _); try reflexivity.
  exists d. split; [exact E |]. split; [exact W |].
  rewrite M. injection E as <-. reflexivity.
Defined.

(** C4 as stated fails: [debounce(fn, Symbol())] and [debounce(fn, 100n)]
    have a callable target, and the conversion of [wait] raises a
    [TypeError] instead of giving [0]. *)
Lemma debounce_Symbol_wait_throws :
  isFunction Samples.fn = true
  /\ debounce Samples.node Samples.fn Samples.first (VSymbol 0) VUndefined
     = Throw (TypeError "Cannot convert a Symbol value to a number")
  /\ debounce Samples.node Samples.fn Samples.first (VBigInt 100) VUndefined
     = Throw (TypeError "Cannot convert a BigInt value to a number")
  /\ ~ (exists d,
          debounce Samples.node Samples.fn Samples.first (VSymbol 0)
            VUndefined = Normal d).
Proof.
  split; [reflexivity |]. split; [reflexivity |]. split; [reflexivity |].
  intros [d H]. discriminate H.
Qed.

(* ===================================================================== *)
(** ** Running the closure *)
(* ===================================================================== *)

Section Runs.

Variable d : Debounced.

(** The closure state and the log after the target has been called by
    [invokeFunc], whatever the target does. *)
Lemma invokeFunc_run (time : Z) (w : World) :
  let s1 := set_lastInvokeTime time
              (set_lastArgs None (set_lastThis VUndefined (state w))) in
  let argv := match lastArgs (state w) with Some a => a | None => [] end in
  let c := {| callThis := lastThis (state w); callArgs := argv;
              callState := s1 |} in
  invokeFunc d time w =
    match func d (calls w) (lastThis (state w)) argv with
    | Normal r =>
        (Normal r, {| state := set_result r s1; host := host w;
                      calls := calls w ++ [c] |})
    | Throw e =>
        (Throw e, {| state := s1; host := host w;
                     calls := calls w ++ [c] |})
    end.
Proof. run_ops; reflexivity. Qed.

(** The trailing edge when [trailing] is off or nothing is queued. *)
Lemma trailingEdge_skips (t : Z) (w : World) :
  trailing d = false \/ lastArgs (state w) = None ->
  trailingEdge d t w =
    (Normal (result (state w)),
     {| state := set_lastArgs None
                   (set_lastThis VUndefined (set_timerId None (state w)));
        host := host w; calls := calls w |}).
Proof.
  intros [T | N]; unfold_ops; simpl.
  - now rewrite T.
  - rewrite N; simpl. now rewrite andb_false_r.
Qed.

(** With no arguments queued, a timer that fires, a flush or a cancel
    does not call the target and queues nothing. *)
Lemma quiet_step (w : World) (e : Event) :
  lastArgs (state w) = None -> isTrigger e = false ->
  calls (step d w e) = calls w /\ lastArgs (state (step d w e)) = None.
Proof.
  intros L T. destruct e; try discriminate T;
    unfold_ops; simpl; repeat (split_match; simpl); auto;
    try congruence;
    match goal with
    | H : _ && negb (isUndefined None) = true |- _ =>
        simpl in H; rewrite andb_false_r in H; discriminate H
    end.
Qed.

Lemma quiet_run (es : list Event) :
  forall w : World,
    lastArgs (state w) = None -> quiet es = true ->
    calls (run d w es) = calls w /\ lastArgs (state (run d w es)) = None.
Proof.
  induction es as [| e es IH]; intros w L Q; simpl; [auto |].
  apply andb_true_iff in Q as [T Q]. apply negb_true_iff in T.
  destruct (quiet_step w e L T) as [C L'].
  destruct (IH (step d w e) L' Q) as [C' L''].
  split; [congruence | assumption].
Qed.

Lemma supplied_cons (e : Event) (es : list Event) :
  supplied (e :: es) = supplied [e] ++ supplied es.
Proof. destruct e; reflexivity. Qed.

Lemma step_delivers (S : list (jsval * list jsval)) (w : World) (e : Event) :
  queuedIn S w ->
  queuedIn (S ++ supplied [e]) (step d w e)
  /\ (forall c, In c (calls (step d w e)) ->
        In c (calls w) \/ In (callThis c, callArgs c) (S ++ supplied [e])).
Proof.
  unfold queuedIn. intros Q.
  destruct e; unfold_ops; simpl; repeat (split_match; simpl);
    (split;
     [ intros a' E; try discriminate E;
       try (injection E as <-); apply in_or_app;
       solve [ right; left; reflexivity
             | left; apply Q; solve [assumption | reflexivity] ]
     | intros c I; try (apply in_app_or in I as [I | [<- | []]]); simpl;
       solve [ left; assumption
             | right; apply in_or_app; right; left; reflexivity
             | right; apply in_or_app; left; apply Q;
               solve [assumption | reflexivity]
             | match goal with
               | H : _ && negb (isUndefined None) = true |- _ =>
                   simpl in H; rewrite andb_false_r in H; discriminate H
               end ] ]).
Qed.

Lemma run_delivers (es : list Event) :
  forall (S : list (jsval * list jsval)) (w : World),
    queuedIn S w ->
    forall c, In c (calls (run d w es)) ->
      In c (calls w) \/ In (callThis c, callArgs c) (S ++ supplied es).
Proof.
  induction es as [| e es IH]; intros S w Q c I; simpl in I.
  - now left.
  - destruct (step_delivers e Q) as [Q' D].
    destruct (IH _ _ Q' c I) as [I' | I'].
    + destruct (D c I') as [I'' | I'']; [now left | right].
      rewrite supplied_cons. apply in_or_app.
      apply in_app_or in I'' as [? | ?]; [now left |].
      right. apply in_or_app. now left.
    + right. now rewrite supplied_cons, app_assoc.
Qed.

End Runs.

(** *** The timer after a trigger, also for a target that calls back *)

Section Live.

Variable d : Debounced.

Lemma timerLive_same (w w' : World) :
  timerId (state w') = timerId (state w) -> host w' = host w ->
  timerLive d w -> timerLive d w'.
Proof. intros T H (h & E & R). exists h. now rewrite T, H. Qed.

Lemma timerLive_started (w w' : World) (delay : number) :
  host w' = host (snd (startTimer d delay w)) ->
  timerId (state w') = Some (nextHandle (host w)) ->
  timerLive d w'.
Proof.
  intros H T. exists (nextHandle (host w)). split; [exact T |].
  rewrite H. unfold registered, startTimer.
  destruct (useRAF d); unfold_ops; simpl.
  - apply in_or_app. right. now left.
  - rewrite map_app. apply in_or_app. right. now left.
Qed.

Section WithApply.

Variable apply : jsval -> option (list jsval) -> M jsval.
Hypothesis apply_live :
  forall this args w, timerLive d w -> timerLive d (snd (apply this args w)).

Lemma invokeFunc_live (time : Z) (w : World) :
  timerLive d w -> timerLive d (snd (Reentrant.invokeFunc apply time w)).
Proof.
  intros L. unfold Reentrant.invokeFunc, bind, gets, modify, ret. simpl.
  match goal with
  | |- context [apply ?th ?a ?w1] =>
      pose proof (@apply_live th a w1) as H;
      destruct (apply th a w1) as [[v | e] w2]
  end; simpl in *.
  - apply timerLive_same with (w := w2); try reflexivity.
    apply H. now apply timerLive_same with (w := w).
  - apply H. now apply timerLive_same with (w := w).
Qed.

Lemma debounced_live (t : Z) (this : jsval) (args : list jsval)
    (w : World) :
  (forall h, timerId (state w) = Some h -> registered d h (host w)) ->
  timerLive d (snd (Reentrant.debounced d apply t this args w)).
Proof.
  destruct w as [[la lth r tid lct lit] hst cs]. simpl. intros Inv.
  assert (Started : forall s s' cs' w1 id,
            startTimer d (wait d) {| state := s; host := hst; calls := cs' |}
            = (Normal id, w1) ->
            timerLive d {| state := set_timerId (Some id) s';
                           host := host w1; calls := calls w1 |}).
  { intros s s' cs' w1 id S.
    assert (E : id = nextHandle hst)
      by (revert S; unfold startTimer; destruct (useRAF d);
          unfold_ops; simpl; congruence).
    eapply timerLive_started with (delay := wait d)
      (w := {| state := s; host := hst; calls := cs' |});
      [simpl; now rewrite S | simpl; now rewrite E]. }
  assert (NoThrow : forall w0 e w1,
            startTimer d (wait d) w0 <> (Throw e, w1)).
  { intros w0 e w1. unfold startTimer. destruct (useRAF d);
      unfold_ops; simpl; discriminate. }
  unfold Reentrant.debounced, Reentrant.leadingEdge, debouncedRest,
    bind, gets, modify, ret. simpl.
  destruct (shouldInvoke d _ t); simpl.
  - destruct tid as [h |]; simpl.
    + destruct (maxing d); simpl.
      * destruct (startTimer d (wait d) _) as [[id | e] w1] eqn:S; simpl.
        -- apply invokeFunc_live. exact (Started _ _ _ _ _ S).
        -- now apply NoThrow in S.
      * exists h. split; [reflexivity | now apply Inv].
    + destruct (startTimer d (wait d) _) as [[id | e] w1] eqn:S; simpl.
      * pose proof (Started _ (state w1) _ _ _ S) as L.
        destruct (leading d); simpl; [now apply invokeFunc_live | exact L].
      * now apply NoThrow in S.
  - destruct tid as [h |]; simpl.
    + exists h. split; [reflexivity | now apply Inv].
    + destruct (startTimer d (wait d) _) as [[id | e] w1] eqn:S; simpl.
      * exact (Started _ _ _ _ _ S).
      * now apply NoThrow in S.
Qed.

Lemma runScript_live (s : Script) :
  Harmless s ->
  forall w, timerLive d w -> timerLive d (snd (runScript d apply s w)).
Proof.
  induction 1 as [c | k _ IH | time this args k _ IH]; intros w L; simpl.
  - exact L.
  - now apply IH.
  - pose proof (@debounced_live time this args w) as D.
    destruct (Reentrant.debounced d apply time this args w) as [c w'].
    apply IH. apply D. intros h T. destruct L as (h' & T' & R).
    congruence.
Qed.

End WithApply.

Lemma applyTarget_live (target : ReTarget) (depth : nat) :
  (forall log this args, Harmless (target log this args)) ->
  forall this args w,
    timerLive d w -> timerLive d (snd (applyTarget d target depth this args w)).
Proof.
  intros H. induction depth as [| n IH]; intros this args w L; simpl.
  - exact L.
  - apply runScript_live; [exact IH | apply H |].
    now apply timerLive_same with (w := w).
Qed.

End Live.

(** A target that does not call back is the case the rest of the file
    treats. *)
Lemma opaque_target_agrees (d : Debounced) (n : nat) (t : Z) (this : jsval)
    (args : list jsval) (w : World) :
  Reentrant.debounced d (applyTarget d (opaque (func d)) (S n)) t this args w
  = debounced d t this args w.
Proof. reflexivity. Qed.




(* ===================================================================== *)
(** ** Leading and trailing edge *)
(* ===================================================================== *)

(** C3 (amended). Take a cycle that starts with the leading edge: a
    trigger finds no timer pending at a time for which [shouldInvoke]
    holds.  With [leading] on, that trigger calls the target once, with
    its own receiver and arguments, and leaves no arguments queued; as
    long as no other trigger comes, the timer handler (however often it
    runs), a flush or a cancel make no second call. *)
Theorem leading_single_trigger (d : Debounced) (w : World) (t : Z)
    (this : jsval) (args : list jsval) (es : list Event) :
  leading d = true ->
  timerId (state w) = None ->
  shouldInvoke d (state w) t = true ->
  quiet es = true ->
  exists c,
    calls (step d w (Trigger t this args)) = calls w ++ [c]
    /\ callThis c = this /\ callArgs c = args
    /\ lastArgs (state (step d w (Trigger t this args))) = None
    /\ calls (run d w (Trigger t this args :: es)) = calls w ++ [c].
Proof.
  intros L T I Q.
  assert (H : exists c,
             calls (step d w (Trigger t this args)) = calls w ++ [c]
             /\ callThis c = this /\ callArgs c = args
             /\ lastArgs (state (step d w (Trigger t this args))) = None).
  { unfold_ops; simpl. rewrite I; simpl. rewrite T; simpl. rewrite L; simpl.
    repeat (split_match; simpl); eexists; repeat split. }
  destruct H as (c & C & Hthis & Hargs & N).
  exists c. repeat split; try assumption.
  destruct (quiet_run d es _ N Q) as [C' _].
  change (run d w (Trigger t this args :: es))
    with (run d (step d w (Trigger t this args)) es).
  congruence.
Qed.

(** On a fresh [debounce(first, 100, { leading: true })]: one trigger at
    0, the timer firing at 100, then a flush. *)
Lemma leading_single_trigger_witness :
  exists c,
    calls (run Samples.eager initialWorld
             [Trigger 0 VUndefined [Samples.A]; Expire 100; Flush 101])
    = [c]
    /\ callArgs c = [Samples.A].
Proof.
  destruct (@leading_single_trigger Samples.eager initialWorld 0 VUndefined
              [Samples.A] [Expire 100; Flush 101])
    as (c & _ & _ & A & _ & R); try reflexivity.
  exists c. split; [exact R | exact A].
Defined.

(** C3 as stated fails for a cycle that starts without the leading edge.
    On [debounce(first, 100, { leading: true, trailing: false })], after
    a trigger at 0 and a flush at 10 no timer is pending; the trigger at
    20 comes less than [wait] after the one at 0, so [shouldInvoke] is
    false: it starts a timer and calls nothing, and neither does the
    timer at 120.  That cycle has [leading] on, one trigger and no
    execution.  With [trailing] on as well, its one execution is the
    trailing one. *)
Lemma idle_trigger_without_leading_call :
  (let w := run Fixtures.eagerOnly initialWorld
              [Trigger 0 VUndefined [Samples.A]; Flush 10] in
   leading Fixtures.eagerOnly = true
   /\ pending (state w) = false
   /\ shouldInvoke Fixtures.eagerOnly (state w) 20 = false
   /\ pending (state (step Fixtures.eagerOnly w
                        (Trigger 20 VUndefined [Samples.B]))) = true
   /\ calls (run Fixtures.eagerOnly w
               [Trigger 20 VUndefined [Samples.B]; Expire 120]) = calls w
   /\ pending (state (run Fixtures.eagerOnly w
                        [Trigger 20 VUndefined [Samples.B]; Expire 120]))
      = false)
  /\ (let w := run Samples.eager initialWorld
                 [Trigger 0 VUndefined [Samples.A]; Flush 10] in
      leading Samples.eager = true
      /\ pending (state w) = false
      /\ calls (step Samples.eager w (Trigger 20 VUndefined [Samples.B]))
         = calls w
      /\ map callArgs
           (calls (run Samples.eager w
                     [Trigger 20 VUndefined [Samples.B]; Expire 120]))
         = map callArgs (calls w) ++ [[Samples.B]]).
Proof. vm_compute. repeat split. Qed.

(* ===================================================================== *)
(** ** Cancel *)
(* ===================================================================== *)

Lemma cleared_handle_gone (h : nat) (l : list (nat * number)) :
  ~ In h (map fst (filter (fun e => negb (Nat.eqb (fst e) h)) l)).
Proof.
  intros I. apply in_map_iff in I as (x & E & I).
  apply filter_In in I as [_ I]. rewrite E, Nat.eqb_refl in I. discriminate.
Qed.

Lemma cancelled_frame_gone (h : nat) (l : list nat) :
  ~ In h (filter (fun e => negb (Nat.eqb e h)) l).
Proof.
  intros I. apply filter_In in I as [_ I].
  rewrite Nat.eqb_refl in I. discriminate.
Qed.

(** C5. From every state, [cancel()] returns with [lastInvokeTime = 0]
    and [lastArgs], [lastCallTime], [lastThis] and [timerId] unset
    ([result] is kept), so [pending()] is false at once; the pending
    host timer is cancelled through the primitive of the instance's
    mode; the target is not called by [cancel] nor, without a new
    trigger, by anything after it (a timer firing late, a flush, another
    cancel); and a second [cancel()] changes nothing. *)
Theorem cancel_resets (d : Debounced) (w : World) (es : list Event) :
  quiet es = true ->
  let w' := snd (cancel d w) in
  fst (cancel d w) = Normal tt
  /\ state w' = {| lastArgs := None; lastThis := VUndefined;
                   result := result (state w); timerId := None;
                   lastCallTime := None; lastInvokeTime := 0 |}
  /\ pending (state w') = false
  /\ calls w' = calls w
  /\ (forall h, timerId (state w) = Some h ->
        if useRAF d then ~ In h (frames (host w'))
        else ~ In h (map fst (timeouts (host w'))))
  /\ calls (run d w' es) = calls w
  /\ cancel d w' = (Normal tt, w').
Proof.
  intros Q w'.
  assert (S : state w' = {| lastArgs := None; lastThis := VUndefined;
                            result := result (state w); timerId := None;
                            lastCallTime := None; lastInvokeTime := 0 |})
    by (subst w'; run_ops; reflexivity).
  assert (C : calls w' = calls w) by (subst w'; run_ops; reflexivity).
  split; [run_ops; reflexivity |].
  split; [exact S |].
  split; [unfold pending; now rewrite S |].
  split; [exact C |].
  split.
  { intros h T. subst w'. unfold_ops; simpl. rewrite T; simpl.
    destruct (useRAF d); simpl.
    - apply cancelled_frame_gone.
    - apply cleared_handle_gone. }
  split.
  { destruct (quiet_run d es w') as [R _]; [now rewrite S | exact Q |].
    congruence. }
  unfold cancel at 1. unfold bind, gets, modify, ret; simpl.
  rewrite S; simpl. destruct w' as [s' h' c']; simpl in *. now subst s'.
Qed.

(** On [debounce(first, 100)]: a trigger at 0, then [cancel()], then the
    timer firing at 100 and a flush. *)
Lemma cancel_resets_witness :
  let w := step Samples.plain initialWorld (Trigger 0 VUndefined [Samples.A]) in
  pending (state w) = true
  /\ pending (state (snd (cancel Samples.plain w))) = false
  /\ calls (run Samples.plain (snd (cancel Samples.plain w))
              [Expire 100; Flush 101]) = [].
Proof.
  intros w. split; [reflexivity |].
  destruct (@cancel_resets Samples.plain w [Expire 100; Flush 101])
    as (_ & _ & P & _ & _ & R & _); [reflexivity |].
  split; [exact P | exact R].
Defined.

(* ===================================================================== *)
(** ** The trailing edge and flush *)
(* ===================================================================== *)

(** C10. Every run of [trailingEdge] leaves [lastArgs], [lastThis] and
    [timerId] unset, whether or not it calls the target.  When it does
    not call it ([trailing] is off or nothing is queued) it returns the
    stored [result], which stays as it was, and the log of calls is
    unchanged.  Whatever the target receives afterwards was supplied by
    a trigger that came after: the arguments dropped at the end of a
    cycle are not delivered later. *)
Theorem trailingEdge_drops (d : Debounced) (t : Z) (w : World) :
  let w' := snd (trailingEdge d t w) in
  lastArgs (state w') = None
  /\ lastThis (state w') = VUndefined
  /\ timerId (state w') = None
  /\ (trailing d = false \/ lastArgs (state w) = None ->
      fst (trailingEdge d t w) = Normal (result (state w))
      /\ result (state w') = result (state w)
      /\ calls w' = calls w)
  /\ (forall es c,
        In c (calls (run d w' es)) ->
        In c (calls w') \/ In (callThis c, callArgs c) (supplied es)).
Proof.
  intros w'.
  assert (L : lastArgs (state w') = None) by (subst w'; run_ops; reflexivity).
  split; [exact L |].
  split; [subst w'; run_ops; reflexivity |].
  split; [subst w'; run_ops; reflexivity |].
  split.
  - intros H. subst w'. rewrite (trailingEdge_skips d t w H). auto.
  - intros es c I.
    apply (@run_delivers d es [] w'); [| exact I].
    intros a E. congruence.
Qed.

(** On [debounce(first, 100, { trailing: false })]: [A] is queued at 0
    and dropped by the trailing edge at 100, which returns the stored
    [result] ([undefined]) and calls nothing. *)
Lemma trailingEdge_drops_witness :
  let w := step Samples.noTrailing initialWorld
             (Trigger 0 VUndefined [Samples.A]) in
  lastArgs (state w) = Some [Samples.A]
  /\ fst (trailingEdge Samples.noTrailing 100 w) = Normal VUndefined
  /\ calls (snd (trailingEdge Samples.noTrailing 100 w)) = [].
Proof.
  intros w. split; [reflexivity |].
  destruct (@trailingEdge_drops Samples.noTrailing 100 w)
    as (_ & _ & _ & H & _).
  destruct H as (R & _ & C); [left; reflexivity |].
  split; [exact R | exact C].
Defined.

(** C2 (amended). With no timer pending, [flush()] returns the stored
    [result] and changes nothing.  With a timer pending it runs the
    trailing edge at the current time: when [trailing] is on and
    arguments are queued, the target is called once, at once, with the
    queued receiver and arguments, and [flush()] completes as the target
    does, a returned value being stored as [result]; when [trailing] is
    off or nothing is queued, [flush()] returns the stored [result]
    without calling the target. *)
Theorem flush_runs_trailing_edge (d : Debounced) (t : Z) (w : World) :
  (timerId (state w) = None ->
   flush d t w = (Normal (result (state w)), w))
  /\ (timerId (state w) <> None ->
      flush d t w = trailingEdge d t w
      /\ (forall a,
            trailing d = true -> lastArgs (state w) = Some a ->
            exists c,
              calls (snd (flush d t w)) = calls w ++ [c]
              /\ callThis c = lastThis (state w) /\ callArgs c = a
              /\ fst (flush d t w) = func d (calls w) (lastThis (state w)) a
              /\ (forall r, fst (flush d t w) = Normal r ->
                    result (state (snd (flush d t w))) = r))
      /\ (trailing d = false \/ lastArgs (state w) = None ->
          fst (flush d t w) = Normal (result (state w))
          /\ calls (snd (flush d t w)) = calls w
          /\ result (state (snd (flush d t w))) = result (state w))).
Proof.
  split.
  - intros T. unfold flush, bind, gets. simpl. rewrite T. simpl.
    now destruct w.
  - intros T.
    assert (E : flush d t w = trailingEdge d t w).
    { unfold flush, bind, gets. simpl.
      destruct (timerId (state w)); [reflexivity | contradiction]. }
    rewrite E. clear E T. split; [reflexivity |]. split.
    + intros a Tr L. unfold_ops; simpl. rewrite Tr; simpl.
      repeat (rewrite L; simpl).
      destruct (func d (calls w) (lastThis (state w)) a) eqn:F; simpl;
        eexists; repeat split; try (intros r R; simpl in R); congruence.
    + intros H. rewrite (trailingEdge_skips d t w H). auto.
Qed.

(** On [debounce(first, 100)]: [A] is queued at 0 and the flush at 10
    calls the target with it and returns what it returns. *)
Lemma flush_runs_trailing_edge_witness :
  let w := step Samples.plain initialWorld (Trigger 0 VUndefined [Samples.A]) in
  exists c,
    calls (snd (flush Samples.plain 10 w)) = [c]
    /\ callArgs c = [Samples.A]
    /\ fst (flush Samples.plain 10 w) = Normal Samples.A.
Proof.
  intros w.
  destruct (@flush_runs_trailing_edge Samples.plain 10 w) as (_ & H).
  destruct H as (_ & H & _); [discriminate |].
  destruct (H [Samples.A]) as (c & C & _ & A & R & _); try reflexivity.
  exists c. split; [exact C |]. split; [exact A | exact R].
Defined.

(** C2 as stated fails: on [debounce(first, 100, { trailing: false })] a
    trigger at 0 leaves a timer pending and [A] queued, and the flush at
    10 returns the stored [result] without calling the target. *)
Lemma flush_pending_without_call :
  let w := step Samples.noTrailing initialWorld
             (Trigger 0 VUndefined [Samples.A]) in
  pending (state w) = true
  /\ lastArgs (state w) = Some [Samples.A]
  /\ fst (flush Samples.noTrailing 10 w) = Normal (result (state w))
  /\ calls (snd (flush Samples.noTrailing 10 w)) = []
  /\ ~ (exists c, calls (snd (flush Samples.noTrailing 10 w)) = calls w ++ [c]).
Proof.
  repeat split. intros [c H]. discriminate H.
Qed.

(* ===================================================================== *)
(** ** The target is called on a cleared state *)
(* ===================================================================== *)

(** C7. [invokeFunc] unsets [lastArgs] and [lastThis] and sets
    [lastInvokeTime] before it calls the target: the state the call sees
    has them so, and so has the state the call leaves, whether the target
    returns or throws.  Every call made by a trigger, by the timer
    handler or by a flush goes through it.  When the target throws, the
    error reaches the caller of the event, [result] is as it was, nothing
    is queued, and without a new trigger no later timer, flush or cancel
    calls the target again. *)
Theorem invocation_clears_first (d : Debounced) (w : World) (e : Event) :
  let w' := step d w e in
  (forall time,
     let w1 := snd (invokeFunc d time w) in
     exists c,
       calls w1 = calls w ++ [c]
       /\ callThis c = lastThis (state w)
       /\ lastArgs (callState c) = None
       /\ lastThis (callState c) = VUndefined
       /\ lastInvokeTime (callState c) = time
       /\ lastArgs (state w1) = None
       /\ lastThis (state w1) = VUndefined
       /\ lastInvokeTime (state w1) = time)
  /\ (calls w' = calls w
      \/ exists c time,
           eventTime e = Some time
           /\ calls w' = calls w ++ [c]
           /\ lastArgs (callState c) = None
           /\ lastThis (callState c) = VUndefined
           /\ lastInvokeTime (callState c) = time
           /\ lastArgs (state w') = None
           /\ lastThis (state w') = VUndefined
           /\ lastInvokeTime (state w') = time)
  /\ (forall err,
        fst (perform d w e) = Throw err ->
        (exists c, calls w' = calls w ++ [c])
        /\ lastArgs (state w') = None
        /\ lastThis (state w') = VUndefined
        /\ result (state w') = result (state w)
        /\ forall es, quiet es = true -> calls (run d w' es) = calls w').
Proof.
  intros w'. split; [| split].
  - intros time w1. subst w1. rewrite invokeFunc_run.
    destruct (func d (calls w) (lastThis (state w)) _); simpl;
      eexists; repeat split.
  - subst w'. destruct e; run_ops;
      solve [ left; reflexivity
            | right; do 2 eexists; repeat split ].
  - intros err T.
    assert (H : (exists c, calls w' = calls w ++ [c])
                /\ lastArgs (state w') = None
                /\ lastThis (state w') = VUndefined
                /\ result (state w') = result (state w)).
    { subst w'. revert T. destruct e; run_ops; intros T;
        try discriminate T; repeat split; eexists; reflexivity. }
    destruct H as (C & L & Th & R). repeat split; try assumption.
    intros es Q. now destruct (quiet_run d es w' L Q).
Qed.

(** On [debounce(failing, 100)] with a target that throws: [A] is queued
    at 0, the timer handler calls the target at 100 and the error comes
    out of it; the timer firing again at 200 and a flush call nothing. *)
Lemma invocation_clears_first_witness :
  let d := {| func := Samples.failing; wait := ofTime 100; maxWait := None;
              leading := false; maxing := false; trailing := true;
              useRAF := false |} in
  let w := step d initialWorld (Trigger 0 VUndefined [Samples.A]) in
  fst (perform d w (Expire 100)) = Throw (VString "boom")
  /\ lastArgs (state (step d w (Expire 100))) = None
  /\ calls (run d (step d w (Expire 100)) [Expire 200; Flush 201])
     = calls (step d w (Expire 100)).
Proof.
  intros d w. split; [reflexivity |].
  destruct (@invocation_clears_first d w (Expire 100)) as (_ & _ & H).
  destruct (H (VString "boom")) as (_ & L & _ & _ & Q); [reflexivity |].
  split; [exact L | apply Q; reflexivity].
Defined.

(* ===================================================================== *)
(** ** The timer handler before the wait is over *)
(* ===================================================================== *)

(** C6. On an instance built by [debounce], when the timer handler runs
    at time [t] and [shouldInvoke t] is false, a trigger has been
    recorded, the instance is in timer mode, and the handler does
    nothing but set a new timer whose delay is exactly
    [min (wait - (t - lastCallTime)) (maxWait - (t - lastInvokeTime))]
    when maxing is on and [wait - (t - lastCallTime)] otherwise; the
    target is not called. *)
Theorem timerExpired_reschedules (realm : Realm) (f : jsval) (body : Target)
    (wt opts : jsval) (d : Debounced) (w : World) (t : Z) :
  debounce realm f body wt opts = Normal d ->
  shouldInvoke d (state w) t = false ->
  exists lc,
    lastCallTime (state w) = Some lc
    /\ useRAF d = false
    /\ (maxing d = true -> exists mw, maxWait d = Some mw)
    /\ let delay :=
         if maxing d
         then min (sub (wait d) (ofTime (t - lc)))
                  (sub (numberOrUndefined (maxWait d))
                       (ofTime (t - lastInvokeTime (state w))))
         else sub (wait d) (ofTime (t - lc)) in
       timerExpired d t w =
         (Normal VUndefined,
          {| state := set_timerId (Some (nextHandle (host w))) (state w);
             host := {| nextHandle := S (nextHandle (host w));
                        timeouts := timeouts (host w)
                                    ++ [(nextHandle (host w), delay)];
                        frames := frames (host w) |};
             calls := calls w |}).
Proof.
  intros B I.
  pose proof (useRAF_wait_zero _ _ _ _ _ B) as Z.
  apply debounce_Normal in B as (_ & _ & _ & _ & _ & MW & _).
  destruct (lastCallTime (state w)) as [lc |] eqn:L.
  2: { unfold shouldInvoke in I. rewrite L in I. discriminate I. }
  assert (U : useRAF d = false).
  { destruct (useRAF d); [| reflexivity]. exfalso.
    unfold shouldInvoke in I. rewrite L, Z in I by reflexivity.
    cbv [timeOrUndefined isUndefined] in I.
    rewrite sub_ofTime, ge_ofTime_zero, lt_ofTime_zero in I.
    destruct (Z.leb_spec 0 (t - lc)), (Z.ltb_spec (t - lc) 0);
      simpl in I; try discriminate I; lia. }
  exists lc. split; [reflexivity |]. split; [exact U |].
  split.
  { intros M. destruct (MW M) as (m & _ & E). eauto. }
  unfold timerExpired, startTimer, setTimeout, liftHost, bind, gets, modify,
    ret; simpl.
  rewrite I, U; simpl. unfold remainingWait. rewrite L.
  cbv [timeOrUndefined]. now rewrite !sub_ofTime.
Qed.

(** On [debounce(first, 100)]: triggers at 0 and at 60; the timer set at
    0 fires at 100 and is set again for [100 - (100 - 60)]. *)
Lemma timerExpired_reschedules_witness :
  let w := run Samples.plain initialWorld
             [Trigger 0 VUndefined [Samples.A];
              Trigger 60 VUndefined [Samples.B]] in
  calls (snd (timerExpired Samples.plain 100 w)) = []
  /\ timeouts (host (snd (timerExpired Samples.plain 100 w)))
     = [(1%nat, ofTime 100);
        (2%nat, sub (ofTime 100) (ofTime (100 - 60)))].
Proof.
  intros w.
  destruct (@timerExpired_reschedules Samples.node Samples.fn Samples.first
              (Samples.ms 100) VUndefined Samples.plain w 100)
    as (lc & L & _ & _ & E); try reflexivity.
  injection L as <-. rewrite E. split; reflexivity.
Defined.

(* ===================================================================== *)
(** ** Timer mode and frame mode *)
(* ===================================================================== *)

(** An event touches the host only through the primitives of the mode. *)
Lemma step_keeps_other_primitive (d : Debounced) (w : World) (e : Event) :
  if useRAF d
  then timeouts (host (step d w e)) = timeouts (host w)
  else frames (host (step d w e)) = frames (host w).
Proof. destruct e; run_ops; reflexivity. Qed.

Lemma run_keeps_other_primitive (d : Debounced) (es : list Event) :
  forall w,
    if useRAF d
    then timeouts (host (run d w es)) = timeouts (host w)
    else frames (host (run d w es)) = frames (host w).
Proof.
  induction es as [| e es IH]; intros w.
  - now destruct (useRAF d).
  - specialize (IH (step d w e)).
    pose proof (step_keeps_other_primitive d w e) as H.
    change (run d w (e :: es)) with (run d (step d w e) es).
    destruct (useRAF d); congruence.
Qed.

(** C8 (amended). On every instance that [debounce] builds, frame mode
    is selected if and only if [requestAnimationFrame] is available and
    the [wait] argument is falsy without being the number [0]: it is
    [undefined] (omitted), [null], [false], [NaN] or the empty string.
    The mode is one boolean of the instance: every timer is started
    through the primitive of the mode ([requestAnimationFrame] after
    cancelling the frame held in [timerId], or [setTimeout] with the
    delay), and no event ever touches the other primitive. *)
Theorem useRAF_selected (realm : Realm) (f : jsval) (body : Target)
    (wt opts : jsval) (d : Debounced) :
  debounce realm f body wt opts = Normal d ->
  (useRAF d = true <->
     hasRequestAnimationFrame realm = true
     /\ (wt = VUndefined \/ wt = VNull \/ wt = VBool false
         \/ wt = VNumber NaN \/ wt = VString ""))
  /\ (forall delay w,
        let h := nextHandle (host w) in
        let w' := snd (startTimer d delay w) in
        fst (startTimer d delay w) = Normal h
        /\ state w' = state w /\ calls w' = calls w
        /\ if useRAF d
           then In h (frames (host w'))
                /\ timeouts (host w') = timeouts (host w)
           else timeouts (host w') = timeouts (host w) ++ [(h, delay)]
                /\ frames (host w') = frames (host w))
  /\ (forall w es,
        if useRAF d
        then timeouts (host (run d w es)) = timeouts (host w)
        else frames (host (run d w es)) = frames (host w)).
Proof.
  intros B. split; [| split].
  - apply debounce_Normal in B as (_ & W & _ & U & _). rewrite U.
    rewrite !andb_true_iff, !negb_true_iff. split.
    + intros [[T Z] R]. split; [exact R |].
      destruct wt; simpl in *; try discriminate; auto.
      * subst b. auto.
      * right; right; right; left.
        destruct n; simpl in *; try discriminate T; [reflexivity |].
        unfold truthy in T. simpl in T. rewrite Z in T. discriminate T.
      * right; right; right; right. f_equal.
        apply negb_false_iff in T. now apply String.eqb_eq.
    + intros [R [-> | [-> | [-> | [-> | ->]]]]]; repeat split; assumption.
  - intros delay w h w'. subst h w'.
    unfold startTimer. destruct (useRAF d); run_ops; repeat split;
      apply in_or_app; right; now left.
  - intros w es. apply run_keeps_other_primitive.
Qed.

(** [debounce(fn)] where [requestAnimationFrame] exists is in frame mode,
    and a trigger requests a frame and sets no timeout. *)
Lemma useRAF_selected_witness :
  exists d,
    debounce Samples.browser Samples.fn Samples.first VUndefined VUndefined
    = Normal d
    /\ useRAF d = true
    /\ timeouts (host (run d initialWorld [Trigger 0 VUndefined []])) = []
    /\ frames (host (run d initialWorld [Trigger 0 VUndefined []])) = [1%nat].
Proof.
  eexists. split; [reflexivity |].
  destruct (@useRAF_selected Samples.browser Samples.fn Samples.first
              VUndefined VUndefined _ eq_refl) as (U & _ & R).
  split; [apply U; split; [reflexivity | now left] |].
  split; [exact (R initialWorld [Trigger 0 VUndefined []]) | reflexivity].
Defined.

(** C8 as stated fails: [debounce(fn, null)] passes a [wait] argument,
    and the instance is in frame mode when [requestAnimationFrame]
    exists; [debounce(fn, NaN)] likewise. *)
Lemma useRAF_for_null_wait :
  (exists d,
     debounce Samples.browser Samples.fn Samples.first VNull VUndefined
     = Normal d /\ useRAF d = true /\ VNull <> VUndefined)
  /\ (exists d,
        debounce Samples.browser Samples.fn Samples.first (VNumber NaN)
          VUndefined = Normal d
        /\ useRAF d = true /\ VNumber NaN <> VUndefined).
Proof.
  split; eexists; (split; [reflexivity |]); split;
    reflexivity || discriminate.
Qed.

(* ===================================================================== *)
(** ** Construction: errors and flags *)
(* ===================================================================== *)

(** X1. [debounce] refuses a target that is not callable with the
    [TypeError] "Expected a function" before it looks at [wait] or at
    the options; with a callable target it succeeds exactly when [wait]
    converts to a number and, if the options are an object with a
    [maxWait] property, that property converts too. *)
Theorem debounce_succeeds_iff (realm : Realm) (f : jsval) (body : Target)
    (wt opts : jsval) :
  (isFunction f = false ->
   debounce realm f body wt opts = Throw (TypeError "Expected a function"))
  /\ ((exists d, debounce realm f body wt opts = Normal d) <->
      isFunction f = true
      /\ (exists w, ToNumber realm wt = Normal w)
      /\ (isObject opts && hasProperty "maxWait" opts = true ->
          exists m, ToNumber realm (getProperty opts "maxWait") = Normal m)).
Proof.
  split.
  - intros F. unfold debounce. now rewrite F.
  - unfold debounce, numberOrZero. destruct (isFunction f); simpl.
    2: { split; [intros [d H]; discriminate H | intros [H _]; discriminate H]. }
    destruct (ToNumber realm wt) as [w | e]; simpl.
    2: { split; [intros [d H]; discriminate H
                | intros (_ & [w H] & _); discriminate H]. }
    destruct (isObject opts); simpl.
    + destruct (hasProperty "maxWait" opts); simpl.
      * destruct (ToNumber realm (getProperty opts "maxWait")) as [m | e];
          simpl.
        -- split; [intros _ | eauto]. repeat split; eauto.
        -- split; [intros [d H]; discriminate H |].
           intros (_ & _ & H). destruct (H eq_refl) as [m H']. discriminate H'.
      * split; [intros _ | eauto]. repeat split; eauto. discriminate.
    + split; [intros _ | eauto]. repeat split; eauto. discriminate.
Qed.

(** [debounce('f', Symbol())]: the target is checked first. *)
Lemma debounce_succeeds_iff_witness :
  debounce Samples.node (VString "f") Samples.first (VSymbol 0) VUndefined
  = Throw (TypeError "Expected a function").
Proof.
  apply (proj1 (debounce_succeeds_iff Samples.node (VString "f")
                  Samples.first (VSymbol 0) VUndefined)).
  reflexivity.
Defined.

(** X2. On every instance that [debounce] builds, [leading] is on
    exactly when the options are an object whose [leading] property is
    truthy, and [trailing] is off exactly when the options are an object
    that has a [trailing] property whose value is falsy: a property that
    is present and [undefined] turns [trailing] off, a missing one leaves
    it on. *)
Theorem debounce_flags (realm : Realm) (f : jsval) (body : Target)
    (wt opts : jsval) (d : Debounced) :
  debounce realm f body wt opts = Normal d ->
  func d = body
  /\ leading d = isObject opts && ToBoolean (getProperty opts "leading")
  /\ (trailing d = false <->
      isObject opts = true /\ hasProperty "trailing" opts = true
      /\ ToBoolean (getProperty opts "trailing") = false).
Proof.
  unfold debounce. destruct (isFunction f); simpl; [| discriminate].
  destruct (numberOrZero realm wt) as [w |]; simpl; [| discriminate].
  destruct (isObject opts); simpl.
  - assert (K : forall mw,
               let d' :=
                 {| func := body; wait := w; maxWait := mw;
                    leading := ToBoolean (getProperty opts "leading");
                    maxing := hasProperty "maxWait" opts;
                    trailing :=
                      if hasProperty "trailing" opts
                      then ToBoolean (getProperty opts "trailing") else true;
                    useRAF :=
                      negb (ToBoolean wt) && negb (strictEqualsZero wt)
                      && hasRequestAnimationFrame realm |} in
               Normal d' = Normal d ->
               func d = body
               /\ leading d = ToBoolean (getProperty opts "leading")
               /\ (trailing d = false <->
                   True /\ hasProperty "trailing" opts = true
                   /\ ToBoolean (getProperty opts "trailing") = false)).
    { intros mw d' [= <-]; simpl. split; [reflexivity |].
      split; [reflexivity |].
      destruct (hasProperty "trailing" opts); split.
      + intros T. now repeat split.
      + now intros (_ & _ & T).
      + discriminate.
      + intros (_ & H & _). discriminate H. }
    destruct (hasProperty "maxWait" opts); simpl.
    + destruct (numberOrZero realm (getProperty opts "maxWait")); simpl;
        [| discriminate].
      intros H. destruct (K _ H) as (A & B & C). repeat split; tauto.
    + intros H. destruct (K _ H) as (A & B & C). repeat split; tauto.
  - intros [= <-]; simpl. split; [reflexivity |]. split; [reflexivity |].
    split; [discriminate | intros (H & _); discriminate H].
Qed.

(** [debounce(fn, 100, { trailing: undefined })] has [trailing] off. *)
Lemma debounce_flags_witness :
  exists d,
    debounce Samples.node Samples.fn Samples.first (Samples.ms 100)
      (VObject false [("trailing", VUndefined)]%string) = Normal d
    /\ trailing d = false /\ leading d = false.
Proof.
  eexists. split; [reflexivity |].
  destruct (@debounce_flags Samples.node Samples.fn Samples.first
              (Samples.ms 100)
              (VObject false [("trailing", VUndefined)]%string) _ eq_refl)
    as (_ & L & T).
  split; [apply T; repeat split | exact L].
Defined.

(* ===================================================================== *)
(** ** Frame mode, and the delay of a timer that is set again *)
(* ===================================================================== *)

Lemma numberOrZero_not_NaN (realm : Realm) (v : jsval) (n : number) :
  numberOrZero realm v = Normal n -> isNaN n = false.
Proof.
  unfold numberOrZero. destruct (ToNumber realm v); [| discriminate].
  intros [= <-]. apply truthy_not_NaN.
Qed.

Lemma max_not_NaN (a b : number) :
  isNaN a = false -> isNaN b = false -> isNaN (max a b) = false.
Proof.
  intros A B. unfold max. rewrite A, B. simpl. now destruct (le a b).
Qed.

Lemma le_trans (a b c : number) :
  le a b = true -> le b c = true -> le a c = true.
Proof.
  destruct a, b, c; simpl; try easy.
  rewrite !Qle_bool_iff. apply Qle_trans.
Qed.

Lemma lt_zero_sub (W : number) (x : Q) :
  isNaN W = false -> le W (Fin x) = false -> lt zero (sub W (Fin x)) = true.
Proof.
  destruct W; simpl; try easy. intros _ H.
  apply negb_true_iff. apply not_true_iff_false. intros L.
  apply Qle_bool_iff in L. apply not_true_iff_false in H. apply H.
  apply Qle_bool_iff. lra.
Qed.

Lemma sub_le (W : number) (x : Q) :
  isNaN W = false -> lt (Fin x) zero = false -> le W (Fin x) = false ->
  le (sub W (Fin x)) W = true.
Proof.
  destruct W; simpl; try easy. intros _ P _.
  apply negb_false_iff, Qle_bool_iff in P. apply Qle_bool_iff. lra.
Qed.

Lemma lt_zero_not_NaN (a : number) : lt zero a = true -> isNaN a = false.
Proof. now destruct a. Qed.

Lemma min_cases (a b : number) :
  isNaN a = false -> isNaN b = false ->
  (min a b = a /\ le a b = true) \/ (min a b = b /\ le b a = true).
Proof.
  intros A B. unfold min. rewrite A, B. simpl.
  destruct (le a b) eqn:E; [now left | right]. split; [reflexivity |].
  now apply le_total.
Qed.

Section Built.

Variable realm : Realm.
Variables (f : jsval) (body : Target) (wt opts : jsval) (d : Debounced).
Hypothesis built : debounce realm f body wt opts = Normal d.

Lemma built_wait_not_NaN : isNaN (wait d) = false.
Proof.
  destruct (debounce_Normal _ _ _ _ _ built) as (_ & W & _).
  exact (numberOrZero_not_NaN _ _ W).
Qed.

Lemma built_maxWait :
  maxing d = true ->
  exists mw, maxWait d = Some mw /\ isNaN mw = false
             /\ le (wait d) mw = true.
Proof.
  intros M.
  destruct (debounce_Normal _ _ _ _ _ built) as (_ & _ & _ & _ & _ & MW & _).
  destruct (MW M) as (m & N & E). exists (max m (wait d)).
  pose proof (numberOrZero_not_NaN _ _ N) as Hm.
  pose proof built_wait_not_NaN as Hw.
  split; [exact E |]. split; [now apply max_not_NaN | now apply le_max_r].
Qed.

(** In frame mode [shouldInvoke] holds at every time. *)
Lemma built_frame_shouldInvoke (s : State) (t : Z) :
  useRAF d = true -> shouldInvoke d s t = true.
Proof.
  intros U. pose proof (useRAF_wait_zero _ _ _ _ _ built U) as Z.
  unfold shouldInvoke. rewrite Z.
  destruct (lastCallTime s) as [lc |]; [| reflexivity].
  cbv [timeOrUndefined isUndefined].
  rewrite sub_ofTime, ge_ofTime_zero, lt_ofTime_zero.
  destruct (Z.leb_spec 0 (t - lc)), (Z.ltb_spec (t - lc) 0);
    simpl; try reflexivity; lia.
Qed.

End Built.



(** X4. On an instance that [debounce] built, when [shouldInvoke] is
    false at [t] the delay [remainingWait] is strictly positive and at
    most [wait]; when maxing is on it is also at most
    [maxWait - (t - lastInvokeTime)]. *)
Theorem remainingWait_bounds (realm : Realm) (f : jsval) (body : Target)
    (wt opts : jsval) (d : Debounced) (s : State) (t : Z) :
  debounce realm f body wt opts = Normal d ->
  shouldInvoke d s t = false ->
  lt zero (remainingWait d s t) = true
  /\ le (remainingWait d s t) (wait d) = true
  /\ (forall mw,
        maxing d = true -> maxWait d = Some mw ->
        le (remainingWait d s t)
           (sub mw (ofTime (t - lastInvokeTime s))) = true).
Proof.
  intros B I.
  pose proof (built_wait_not_NaN _ _ _ _ _ B) as NW.
  pose proof (built_maxWait _ _ _ _ _ B) as MW.
  unfold shouldInvoke in I. unfold remainingWait.
  destruct (lastCallTime s) as [lc |]; [| discriminate I].
  cbv [timeOrUndefined isUndefined] in *. rewrite !sub_ofTime in *.
  simpl orb in I.
  apply orb_false_iff in I as [I M]. apply orb_false_iff in I as [G L].
  unfold ge in G. unfold ofTime in *.
  set (x := inject_Z (t - lc)) in *.
  pose proof (lt_zero_sub _ _ NW G) as P.
  pose proof (sub_le _ _ NW L G) as Q.
  destruct (maxing d) eqn:Mx.
  - destruct (MW eq_refl) as (mw & E & Nm & _). rewrite E in *. simpl in *.
    unfold ge in M. set (y := inject_Z (t - lastInvokeTime s)) in *.
    pose proof (lt_zero_sub _ _ Nm M) as P'.
    destruct (min_cases (sub (wait d) (Fin x)) (sub mw (Fin y)))
      as [[Em Hm] | [Em Hm]];
      try (apply lt_zero_not_NaN; assumption); rewrite Em.
    + split; [exact P |]. split; [exact Q |].
      now intros mw' _ [= <-].
    + split; [exact P' |]. split; [exact (le_trans _ _ _ Hm Q) |].
      intros mw' _ [= <-]. apply le_refl.
      now apply lt_zero_not_NaN.
  - split; [exact P |]. split; [exact Q |]. discriminate.
Qed.

(** On [debounce(first, 100)]: triggers at 0 and 60, the timer fires at
    100: the delay is positive and at most 100. *)
Lemma remainingWait_bounds_witness :
  let s := state (run Samples.plain initialWorld
                    [Trigger 0 VUndefined [Samples.A];
                     Trigger 60 VUndefined [Samples.B]]) in
  lt zero (remainingWait Samples.plain s 100) = true
  /\ le (remainingWait Samples.plain s 100) (ofTime 100) = true.
Proof.
  intros s.
  destruct (@remainingWait_bounds Samples.node Samples.fn Samples.first
              (Samples.ms 100) VUndefined Samples.plain s 100 eq_refl eq_refl)
    as (P & Q & _).
  split; [exact P | exact Q].
Defined.

(* ===================================================================== *)
(** ** When the target runs, and what the caller gets *)
(* ===================================================================== *)

(** The cases of an event, shared by the properties below. *)
Lemma event_cases (d : Debounced) (w : World) (e : Event) :
  if invokes d w e
  then exists c,
         calls (step d w e) = calls w ++ [c]
         /\ (callThis c, callArgs c) = delivered w e
         /\ fst (perform d w e) = func d (calls w) (callThis c) (callArgs c)
         /\ result (state (step d w e)) =
              match func d (calls w) (callThis c) (callArgs c) with
              | Normal v => v
              | Throw _ => result (state w)
              end
  else calls (step d w e) = calls w
       /\ fst (perform d w e) = Normal (idleValue d w e)
       /\ result (state (step d w e)) = result (state w).
Proof.
  destruct w as [[la lth r tid lct lit] h cs].
  destruct e; unfold invokes, idleValue, delivered; unfold_ops; simpl.
  - (* Trigger *)
    destruct (shouldInvoke d _ time); simpl.
    + destruct tid; simpl.
      * destruct (maxing d); simpl; [| auto].
        destruct (useRAF d); simpl;
          destruct (func d cs this args) eqn:F; simpl;
          eexists; (split; [reflexivity |]); (split; [reflexivity |]);
          simpl; rewrite ?F; split; reflexivity.
      * destruct (leading d); simpl.
        -- destruct (useRAF d); simpl;
             destruct (func d cs this args) eqn:F; simpl;
             eexists; (split; [reflexivity |]); (split; [reflexivity |]);
          simpl; rewrite ?F; split; reflexivity.
        -- destruct (useRAF d); simpl; auto.
    + destruct tid; simpl; [auto |].
      destruct (useRAF d); simpl; auto.
  - (* Expire *)
    destruct (shouldInvoke d _ time); simpl.
    + destruct (trailing d); simpl; [| auto].
      destruct la as [a |]; simpl; [| auto].
      destruct (func d cs lth a) eqn:F; simpl;
        eexists; (split; [reflexivity |]); (split; [reflexivity |]);
          simpl; rewrite ?F; split; reflexivity.
    + destruct (useRAF d); simpl; auto.
  - (* Flush *)
    destruct tid; simpl; [| auto].
    destruct (trailing d); simpl; [| auto].
    destruct la as [a |]; simpl; [| auto].
    destruct (func d cs lth a) eqn:F; simpl;
      eexists; (split; [reflexivity |]); (split; [reflexivity |]);
          simpl; rewrite ?F; split; reflexivity.
  - (* Cancel *)
    destruct tid; simpl; [destruct (useRAF d) |]; simpl; auto.
Qed.

(** X5. Every event calls the target at most once, and exactly in these
    cases: a trigger for which [shouldInvoke] holds and that either
    finds no timer on an instance with [leading], or finds a timer on an
    instance with maxing; a timer firing when [shouldInvoke] holds, on
    an instance with [trailing] and with arguments queued; a flush that
    finds a timer, on an instance with [trailing] and with arguments
    queued; never a cancel.  When it is called, a trigger passes its own
    receiver and arguments, the timer and the flush pass the queued
    ones, the caller of the event gets what the target returns or
    throws, and a returned value becomes [result].  When it is not
    called, [result] is unchanged and the caller gets it (a timer that
    is set again gets [undefined]). *)
Theorem calls_target_exactly_when (d : Debounced) (w : World) (e : Event) :
  if invokes d w e
  then exists c,
         calls (step d w e) = calls w ++ [c]
         /\ (callThis c, callArgs c) = delivered w e
         /\ fst (perform d w e) = func d (calls w) (callThis c) (callArgs c)
         /\ result (state (step d w e)) =
              match func d (calls w) (callThis c) (callArgs c) with
              | Normal v => v
              | Throw _ => result (state w)
              end
  else calls (step d w e) = calls w
       /\ fst (perform d w e) = Normal (idleValue d w e)
       /\ result (state (step d w e)) = result (state w).
Proof. exact (event_cases d w e). Qed.

(* ===================================================================== *)
(** ** What every reachable state satisfies *)
(* ===================================================================== *)

Lemma step_consistent (d : Debounced) (w : World) (e : Event) :
  consistent (state w) -> consistent (state (step d w e)).
Proof.
  destruct w as [[la lth r tid lct lit] h cs]. unfold consistent. simpl.
  intros (A & B & C).
  destruct e; unfold_ops; simpl.
  - destruct (shouldInvoke d _ time); simpl;
      destruct tid; simpl;
      repeat (split_match; simpl);
      repeat split; intros; congruence.
  - destruct (shouldInvoke d _ time) eqn:I; simpl.
    + repeat (split_match; simpl); repeat split; intros; congruence.
    + destruct lct; [| discriminate I].
      destruct (useRAF d); simpl; repeat split; intros;
        solve [congruence | auto].
  - destruct tid; simpl.
    + repeat (split_match; simpl); repeat split; intros; congruence.
    + repeat split; intros; auto.
  - destruct tid; simpl; [destruct (useRAF d) |]; simpl;
      repeat split; intros; congruence.
Qed.

Lemma run_consistent (d : Debounced) (es : list Event) :
  forall w, consistent (state w) -> consistent (state (run d w es)).
Proof.
  induction es as [| e es IH]; intros w H; [exact H |].
  change (run d w (e :: es)) with (run d (step d w e) es).
  apply IH. now apply step_consistent.
Qed.

(** X6. In every state an instance reaches from its first state, through
    triggers, timers firing at any time, flushes and cancels, and
    whatever the target returns or throws: if arguments are queued a
    timer is pending; if a timer is pending a trigger time is recorded;
    and a receiver is kept only while arguments are queued. *)
Theorem reachable_state_invariant (d : Debounced) (es : list Event) :
  let s := state (run d initialWorld es) in
  (lastArgs s <> None -> pending s = true)
  /\ (pending s = true -> lastCallTime s <> None)
  /\ (lastThis s <> VUndefined -> lastArgs s <> None).
Proof.
  intros s.
  assert (H : consistent s).
  { apply run_consistent. unfold consistent. simpl. repeat split; congruence. }
  destruct H as (A & B & C). unfold pending.
  split; [| split; [| exact C]].
  - intros L. specialize (A L). now destruct (timerId s).
  - intros P. apply B. now destruct (timerId s).
Qed.


(** [debounce(first, 100)], a trigger at 0: arguments are queued and a
    timer is pending. *)
Lemma reachable_state_invariant_witness :
  pending (state (run Samples.plain initialWorld
                    [Trigger 0 VUndefined [Samples.A]])) = true.
Proof.
  apply (proj1 (reachable_state_invariant Samples.plain
                  [Trigger 0 VUndefined [Samples.A]])).
  discriminate.
Defined.

Lemma returnedFrom_snoc (d : Debounced) (l : list Call) :
  forall (b : list Call) (c : Call) (r : jsval),
    returnedFrom d b (l ++ [c]) r =
      match func d (b ++ l) (callThis c) (callArgs c) with
      | Normal v => v
      | Throw _ => returnedFrom d b l r
      end.
Proof.
  induction l as [| x l IH]; intros b c r; simpl.
  - now rewrite app_nil_r.
  - rewrite IH. now rewrite <- app_assoc.
Qed.

Lemma step_result (d : Debounced) (w : World) (e : Event) :
  result (state w) = lastReturned d (calls w) ->
  result (state (step d w e)) = lastReturned d (calls (step d w e)).
Proof.
  intros R. pose proof (event_cases d w e) as H.
  destruct (invokes d w e).
  - destruct H as (c & C & _ & _ & S). rewrite C, S.
    unfold lastReturned. rewrite returnedFrom_snoc. simpl.
    fold (lastReturned d (calls w)). now rewrite <- R.
  - destruct H as (C & _ & S). now rewrite C, S.
Qed.

Lemma run_result (d : Debounced) (es : list Event) :
  forall w,
    result (state w) = lastReturned d (calls w) ->
    result (state (run d w es)) = lastReturned d (calls (run d w es)).
Proof.
  induction es as [| e es IH]; intros w H; [exact H |].
  change (run d w (e :: es)) with (run d (step d w e) es).
  apply IH. now apply step_result.
Qed.

(** X7. In every state an instance reaches from its first state,
    [result] is the value returned by the most recent call of the target
    that returned, and [undefined] if no call has returned (a call that
    throws leaves it as it was); so a trigger or a flush that does not
    call the target returns that value. *)
Theorem result_is_last_returned (d : Debounced) (es : list Event)
    (e : Event) :
  let w := run d initialWorld es in
  result (state w) = lastReturned d (calls w)
  /\ (invokes d w e = false ->
      isTrigger e = true \/ (exists t, e = Flush t) ->
      fst (perform d w e) = Normal (lastReturned d (calls w))).
Proof.
  intros w.
  assert (R : result (state w) = lastReturned d (calls w))
    by (apply run_result; reflexivity).
  split; [exact R |]. intros I K.
  pose proof (event_cases d w e) as H. rewrite I in H.
  destruct H as (_ & V & _). rewrite V, <- R.
  destruct K as [K | [t ->]]; [| reflexivity].
  destruct e; try discriminate K. reflexivity.
Qed.


(** On [debounce(first, 100)]: [A] is delivered at 100 and returned; the
    trigger at 150 starts a new cycle and returns [A]. *)
Lemma result_is_last_returned_witness :
  fst (perform Samples.plain
         (run Samples.plain initialWorld
            [Trigger 0 VUndefined [Samples.A]; Expire 100])
         (Trigger 150 VUndefined [Samples.B]))
  = Normal Samples.A.
Proof.
  apply (proj2 (result_is_last_returned Samples.plain
                  [Trigger 0 VUndefined [Samples.A]; Expire 100]
                  (Trigger 150 VUndefined [Samples.B])));
    [reflexivity | left; reflexivity].
Defined.

(* ===================================================================== *)
(** ** One cycle without maxWait *)
(* ===================================================================== *)

Section Cycle.

Variable d : Debounced.
Hypothesis no_maxing : maxing d = false.

(** While a timer is pending, triggers and timers that fire early call
    nothing, keep a timer pending and leave the last trigger queued. *)
Lemma early_step (w : World) (e : Event) :
  timerId (state w) <> None -> early d w [e] = true ->
  calls (step d w e) = calls w
  /\ timerId (state (step d w e)) <> None
  /\ result (state (step d w e)) = result (state w)
  /\ queue (step d w e) = lastSupplied [e] (queue w).
Proof.
  destruct w as [[la lth r tid lct lit] h cs]. unfold queue. simpl.
  intros T E. rewrite andb_true_r in E.
  destruct e; try discriminate E; unfold_ops; simpl.
  - destruct tid; [| contradiction]. rewrite no_maxing.
    destruct (shouldInvoke d _ time); simpl; repeat split; discriminate.
  - apply negb_true_iff in E. rewrite E; simpl.
    destruct (useRAF d); simpl; repeat split; discriminate.
Qed.

Lemma lastSupplied_cons (e : Event) (es : list Event)
    (q : jsval * option (list jsval)) :
  lastSupplied (e :: es) q = lastSupplied es (lastSupplied [e] q).
Proof. destruct e; reflexivity. Qed.

Lemma early_run (es : list Event) :
  forall w,
    timerId (state w) <> None -> early d w es = true ->
    calls (run d w es) = calls w
    /\ timerId (state (run d w es)) <> None
    /\ result (state (run d w es)) = result (state w)
    /\ queue (run d w es) = lastSupplied es (queue w).
Proof.
  induction es as [| e es IH]; intros w T E.
  - now repeat split.
  - change (run d w (e :: es)) with (run d (step d w e) es).
    simpl in E. apply andb_true_iff in E as [E1 E2].
    destruct (early_step w e T) as (C & T' & R & Q).
    { simpl. now rewrite E1. }
    destruct (IH _ T' E2) as (C' & T'' & R' & Q').
    rewrite lastSupplied_cons, <- Q.
    repeat split; congruence.
Qed.

(** The trigger that finds no timer. *)
Lemma opening_trigger (w : World) (t : Z) (this : jsval)
    (args : list jsval) :
  timerId (state w) = None ->
  let w' := step d w (Trigger t this args) in
  timerId (state w') <> None
  /\ if shouldInvoke d (state w) t && leading d
     then (exists c, calls w' = calls w ++ [c]
                     /\ callThis c = this /\ callArgs c = args)
          /\ queue w' = (VUndefined, None)
     else calls w' = calls w /\ queue w' = (this, Some args).
Proof.
  destruct w as [[la lth r tid lct lit] h cs]. unfold queue. simpl.
  intros ->. unfold_ops; simpl.
  destruct (shouldInvoke d _ t); simpl.
  - destruct (leading d); simpl;
      repeat (split_match; simpl);
      (split; [discriminate |]); try (split; [eexists |]); repeat split.
  - destruct (useRAF d); simpl; (split; [discriminate |]); repeat split.
Qed.

(** The timer that fires when [shouldInvoke] holds. *)
Lemma closing_timer (w : World) (t : Z) :
  shouldInvoke d (state w) t = true ->
  let w' := step d w (Expire t) in
  timerId (state w') = None /\ lastArgs (state w') = None
  /\ match lastArgs (state w) with
     | Some a =>
         if trailing d
         then exists c, calls w' = calls w ++ [c]
                        /\ callThis c = lastThis (state w)
                        /\ callArgs c = a
         else calls w' = calls w
     | None => calls w' = calls w
     end.
Proof.
  destruct w as [[la lth r tid lct lit] h cs]. simpl.
  intros I. unfold_ops; simpl. rewrite I; simpl.
  destruct (trailing d), la; simpl;
    repeat (split_match; simpl); repeat split; eexists; repeat split.
Qed.

End Cycle.

Lemma run_snoc (d : Debounced) (w : World) (es : list Event) (e : Event) :
  run d w (es ++ [e]) = step d (run d w es) e.
Proof. unfold run. now rewrite fold_left_app. Qed.

Lemma lastSupplied_some (es : list Event) :
  forall this args,
    exists this' args', lastSupplied es (this, Some args) = (this', Some args').
Proof.
  induction es as [| e es IH]; intros this args; simpl; [eauto |].
  destruct e; auto.
Qed.

Lemma lastSupplied_after_trigger (es : list Event) :
  forall q q', supplied es <> [] -> lastSupplied es q = lastSupplied es q'.
Proof.
  induction es as [| e es IH]; intros q q' H; [contradiction |].
  destruct e; simpl in *; auto.
Qed.







(* ===================================================================== *)
(** ** maxWait *)
(* ===================================================================== *)

Lemma maxWait_reached (d : Debounced) (s : State) (t : Z) (mw : number) :
  maxing d = true -> maxWait d = Some mw ->
  ge (ofTime (t - lastInvokeTime s)) mw = true ->
  shouldInvoke d s t = true.
Proof.
  intros M E G. unfold shouldInvoke. rewrite !sub_ofTime, M, E. simpl.
  rewrite G. now rewrite !orb_true_r.
Qed.





(* ===================================================================== *)
(** ** The timer handle and the host *)
(* ===================================================================== *)

Lemma step_handle (d : Debounced) (w : World) (e : Event) :
  (forall h, timerId (state w) = Some h ->
             registered d h (host w) /\ (h < nextHandle (host w))%nat) ->
  forall h, timerId (state (step d w e)) = Some h ->
            registered d h (host (step d w e))
            /\ (h < nextHandle (host (step d w e)))%nat.
Proof.
  destruct w as [[la lth r tid lct lit] [nh tos frs] cs].
  unfold registered. simpl. intros Inv.
  destruct e; unfold_ops; simpl;
    destruct (useRAF d); simpl;
    repeat (split_match; simpl);
    intros h' E; try discriminate E;
    try (injection E as <-);
    try (split;
         [ first [ rewrite map_app; apply in_or_app; right; now left
                 | apply in_or_app; right; now left ]
         | lia ]);
    try (subst; destruct (Inv _ eq_refl); split; [assumption | lia]).
Qed.

Lemma run_handle (d : Debounced) (es : list Event) :
  forall w,
    (forall h, timerId (state w) = Some h ->
               registered d h (host w) /\ (h < nextHandle (host w))%nat) ->
    forall h, timerId (state (run d w es)) = Some h ->
              registered d h (host (run d w es))
              /\ (h < nextHandle (host (run d w es)))%nat.
Proof.
  induction es as [| e es IH]; intros w Inv; [exact Inv |].
  change (run d w (e :: es)) with (run d (step d w e) es).
  apply IH. now apply step_handle.
Qed.

(** X13. In every state an instance reaches from its first state, the
    handle in [timerId] was given by the host through the primitive of
    the instance's mode ([setTimeout] or [requestAnimationFrame]) and
    has not been cleared or cancelled by the instance.  [cancel()] then
    removes exactly that handle: it is no longer held, every other
    timeout (with its delay) and every other frame the host holds stays,
    and nothing is added. *)
Theorem pending_handle_registered (d : Debounced) (es : list Event)
    (h : nat) :
  let w := run d initialWorld es in
  let w' := snd (cancel d w) in
  timerId (state w) = Some h ->
  registered d h (host w)
  /\ (h < nextHandle (host w))%nat
  /\ ~ registered d h (host w')
  /\ nextHandle (host w') = nextHandle (host w)
  /\ (forall e, In e (timeouts (host w')) <->
                In e (timeouts (host w)) /\ (useRAF d = false -> fst e <> h))
  /\ (forall g, In g (frames (host w')) <->
                In g (frames (host w)) /\ (useRAF d = true -> g <> h)).
Proof.
  intros w w' T.
  destruct (@run_handle d es initialWorld) with (h := h) as (R & L);
    [discriminate | exact T |].
  split; [exact R |]. split; [exact L |].
  subst w'. unfold registered. unfold_ops; simpl. rewrite T; simpl.
  destruct (useRAF d); simpl.
  - split; [apply cancelled_frame_gone |]. split; [reflexivity |].
    split.
    + intros e. split; [intros I; split; [exact I | discriminate] | tauto].
    + intros g. rewrite filter_In, negb_true_iff, Nat.eqb_neq. tauto.
  - split; [apply cleared_handle_gone |]. split; [reflexivity |].
    split.
    + intros e. rewrite filter_In, negb_true_iff, Nat.eqb_neq. tauto.
    + intros g. split; [intros I; split; [exact I | discriminate] | tauto].
Qed.

(** [debounce(first, 100, { maxWait: 150 })], triggers at 0 and 160: the
    second starts a timer without clearing the first; [cancel()] removes
    the second handle, which is the one in [timerId], and the host still
    holds the first. *)
Lemma pending_handle_registered_witness :
  let w := run Samples.capped initialWorld
             [Trigger 0 VUndefined [Samples.A];
              Trigger 160 VUndefined [Samples.B]] in
  timerId (state w) = Some 2%nat
  /\ registered Samples.capped 2 (host w)
  /\ In (1%nat, ofTime 100) (timeouts (host (snd (cancel Samples.capped w))))
  /\ ~ registered Samples.capped 2 (host (snd (cancel Samples.capped w))).
Proof.
  intros w.
  destruct (@pending_handle_registered Samples.capped
              [Trigger 0 VUndefined [Samples.A];
               Trigger 160 VUndefined [Samples.B]]
              2%nat eq_refl) as (R & _ & G & _ & K & _).
  split; [reflexivity |]. split; [exact R |]. split; [| exact G].
  apply K. split; [now left | discriminate].
Defined.



(* ===================================================================== *)
(** ** A wait of zero *)
(* ===================================================================== *)

Lemma zero_wait_shouldInvoke (d : Debounced) (s : State) (t : Z) :
  wait d = zero -> shouldInvoke d s t = true.
Proof.
  intros Z. unfold shouldInvoke. rewrite Z.
  destruct (lastCallTime s) as [lc |]; [| reflexivity].
  cbv [timeOrUndefined isUndefined].
  rewrite sub_ofTime, ge_ofTime_zero, lt_ofTime_zero.
  destruct (Z.leb_spec 0 (t - lc)), (Z.ltb_spec (t - lc) 0);
    simpl; try reflexivity; lia.
Qed.



(* ===================================================================== *)
(** ** Sample runs *)
(* ===================================================================== *)

Module SampleRuns.
Import Samples.

Example plain_built :
  debounce node fn first (ms 100) VUndefined = Normal plain.
Proof. reflexivity. Qed.

Example eager_built :
  debounce node fn first (ms 100)
    (VObject false [("leading", VBool true)]%string) = Normal eager.
Proof. reflexivity. Qed.

Example noTrailing_built :
  debounce node fn first (ms 100)
    (VObject false [("trailing", VBool false)]%string) = Normal noTrailing.
Proof. reflexivity. Qed.

Example capped_built :
  debounce node fn first (ms 100)
    (VObject false [("maxWait", ms 150)]%string) = Normal capped.
Proof. reflexivity. Qed.

(** A target that is not callable is refused. *)
Example not_callable :
  debounce node (VString "f") first (ms 100) VUndefined
  = Throw (TypeError "Expected a function").
Proof. reflexivity. Qed.

(** [wait = 100], triggers at 0, 30 and 60 with [A], [B] and [C]: the
    timer set at 0 fires at 100 and is set again for the 60 that
    remain; at 160 the target runs once, with [C]. *)
Example burst_runs_once :
  let w := run plain initialWorld
             [Trigger 0 VUndefined [A]; Trigger 30 VUndefined [B];
              Trigger 60 VUndefined [C]; Expire 100] in
  calls w = []
  /\ timeouts (host w)
     = [(1%nat, ofTime 100); (2%nat, Fin (100 - (100 - 60))%Q)]
  /\ map callArgs (calls (step plain w (Expire 160))) = [[C]].
Proof. vm_compute. repeat split. Qed.

(** [wait = 100, maxWait = 150], a trigger every 40: the timer set at
    0 fires at 100 and is set again for [min (100 - 20) (150 - 100)];
    at 150 the target runs with the arguments of the trigger at 120. *)
Example capped_runs_at_150 :
  let w := run capped initialWorld
             [Trigger 0 VUndefined [A]; Trigger 40 VUndefined [B];
              Trigger 80 VUndefined [C]; Expire 100;
              Trigger 120 VUndefined [A; B]] in
  calls w = []
  /\ map callArgs (calls (step capped w (Expire 150))) = [[A; B]]
  /\ lastInvokeTime (state (step capped w (Expire 150))) = 150%Z.
Proof. vm_compute. repeat split. Qed.

(** [leading] and [trailing] with two triggers in a cycle: the first is
    run at once, the second at the end of the wait. *)
Example eager_two_triggers :
  map callArgs
    (calls (run eager initialWorld
              [Trigger 0 VUndefined [A]; Trigger 10 VUndefined [B];
               Expire 100; Expire 110]))
  = [[A]; [B]].
Proof. reflexivity. Qed.

(** A trigger that finds no timer but comes less than [wait] after the
    last one (here after a flush) starts a timer without running the
    leading edge; its arguments are delivered at the trailing edge. *)
Example eager_trigger_after_flush :
  let w := run eager initialWorld
             [Trigger 0 VUndefined [A]; Flush 10; Trigger 20 VUndefined [B]] in
  map callArgs (calls w) = [[A]]
  /\ pending (state w) = true
  /\ map callArgs (calls (step eager w (Expire 120))) = [[A]; [B]].
Proof. vm_compute. repeat split. Qed.

End SampleRuns.
